(** * SSD1306 OLED + AHT20 sensor I2C client drivers

    A shallow embedding of the two kernel modules of the repository,
    [i2c_driver.c] (module version 1.50, [Module V1] below) and
    [i2c_client_driver.c] (module version 2.0, [Module V2] below), and the
    properties of their sensor decoding, display command streams, control
    requests and start-up registration.

    C integers are [Z] with the wrap-around of their type written out.
    The driver code runs in a small state-and-fault monad over a [world]:
    the module's global variables, the trace of calls made into the kernel
    and the answers the kernel gives (bus transfer results, received bytes,
    device creation results), which the drivers cannot control. *)

From Stdlib Require Import ZArith List String Bool Lia.
Import ListNotations.
Open Scope Z_scope.

(** ** C integer types *)

Module CInt.

(** Value of an expression converted to [u32] / [unsigned int]. *)
Definition u32 (z : Z) : Z := z mod 2 ^ 32.

(** Value of a [u32] converted to [int] (two's complement). *)
Definition s32 (z : Z) : Z :=
  let m := z mod 2 ^ 32 in
  if m <? 2 ^ 31 then m else m - 2 ^ 32.

(** An [unsigned char] / [u8] value. *)
Definition is_u8 (b : Z) : Prop := 0 <= b < 256.

(** Linux errno values used by the drivers. *)
Definition EIO : Z := 5.
Definition EFAULT : Z := 14.
Definition EBUSY : Z := 16.
Definition ENODEV : Z := 19.
Definition EINVAL : Z := 22.

(** [_IOC(dir,type,nr,size)] of [asm-generic/ioctl.h]. *)
Definition _IOC (dir type nr size : Z) : Z :=
  Z.lor (Z.lor (Z.lor (Z.shiftl dir 30) (Z.shiftl type 8)) (Z.shiftl nr 0))
        (Z.shiftl size 16).
Definition _IOC_NONE : Z := 0.
Definition _IOC_READ : Z := 2.
Definition _IO (type nr : Z) : Z := _IOC _IOC_NONE type nr 0.
Definition _IOR (type nr size : Z) : Z := _IOC _IOC_READ type nr size.

End CInt.
Import CInt.

(** ** The kernel as seen by the drivers *)

(** [I2C_BOARD_INFO(name, addr)]; a created client carries the same data. *)
Record i2c_board_info := I2C_BOARD_INFO { dev_name : string; dev_addr : Z }.

Definition i2c_client := i2c_board_info.

(** A [struct i2c_client *]: [NULL], a live client, or [ERR_PTR(e)]. *)
Inductive client_ptr :=
| NULL
| Ptr (c : i2c_client)
| ERR_PTR (e : Z).

Definition IS_ERR (p : client_ptr) : bool :=
  match p with ERR_PTR _ => true | _ => false end.

Definition PTR_ERR (p : client_ptr) : Z :=
  match p with ERR_PTR e => e | _ => 0 end.

(** [struct aht20_data] of [i2c_client_driver.c]. *)
Record aht20_data := { temperature : Z; humidity : Z }.

Inductive level := KERN_ALERT | KERN_ERR | KERN_INFO.

(** Calls made into the kernel, in program order. *)
Inductive event :=
| Msleep (ms : Z)
| MasterSend (c : i2c_client) (buf : list Z)
| MasterRecv (c : i2c_client) (count : Z)
| Printk (l : level) (fmt : string) (args : list Z)
| GetAdapter (nr : Z)
| PutAdapter
| NewClientDevice (info : i2c_board_info)
| AddDriver (name : string)
| Chrdev (call : string) (name : string)
| CopyToUser (arg : Z) (data : aht20_data).

(** What the kernel answers.  Bus transfers are numbered in the order they
    are issued; [xfer_ret n] is the return value of transfer number [n]
    (a negative errno on failure, the byte count otherwise) and [rx_data n]
    is the content of the receive buffer after it, whatever the outcome:
    on a failed receive that is what the uninitialised buffer held. *)
Record kernel := {
  adapter_at : Z -> bool;
  new_device_errno : i2c_board_info -> Z;
  xfer_ret : nat -> Z;
  rx_data : nat -> list Z;
  user_writable : Z -> bool
}.

(** The state threaded through driver code; [G] is the module's globals. *)
Record world (G : Type) := World {
  kern : kernel;
  trace : list event;
  nxfer : nat;
  devices : list i2c_client;
  glob : G
}.
Arguments World {G}.
Arguments kern {G}.
Arguments trace {G}.
Arguments nxfer {G}.
Arguments devices {G}.
Arguments glob {G}.

(** ** State-and-fault monad *)

(** [Oops]: the kernel faulted (a [NULL] or error pointer was dereferenced). *)
Inductive outcome (G A : Type) :=
| Done (a : A) (w : world G)
| Oops.
Arguments Done {G A}.
Arguments Oops {G A}.

Definition M (G A : Type) : Type := world G -> outcome G A.

Definition ret {G A} (a : A) : M G A := fun w => Done a w.

Definition bind {G A B} (m : M G A) (f : A -> M G B) : M G B :=
  fun w => match m w with
           | Done a w' => f a w'
           | Oops => Oops
           end.

Declare Scope drv_scope.
Delimit Scope drv_scope with drv.
Notation "x <- m ;; k" := (bind m (fun x => k))
  (at level 61, m at next level, right associativity) : drv_scope.
Notation "m ;; k" := (bind m (fun _ => k))
  (at level 61, right associativity) : drv_scope.
Open Scope drv_scope.

Definition emit {G} (e : event) : M G unit :=
  fun w => Done tt (World (kern w) (trace w ++ [e]) (nxfer w) (devices w) (glob w)).

Definition get {G} : M G G := fun w => Done (glob w) w.

Definition put {G} (g : G) : M G unit :=
  fun w => Done tt (World (kern w) (trace w) (nxfer w) (devices w) g).

(** [for (i = 0; i < n; i++) body;] for a body that does not read [i]. *)
Fixpoint for_loop {G} (n : nat) (body : M G unit) : M G unit :=
  match n with
  | O => ret tt
  | S n' => body ;; for_loop n' body
  end.

(** ** Kernel services *)

Definition msleep {G} (ms : Z) : M G unit := emit (Msleep ms).

Definition printk {G} (l : level) (fmt : string) (args : list Z) : M G unit :=
  emit (Printk l fmt args).
Definition pr_info {G} (fmt : string) : M G unit := printk KERN_INFO fmt [].
Definition pr_err {G} (fmt : string) : M G unit := printk KERN_ERR fmt [].

(** [i2c_master_send(client, buf, count)]: one write transfer. *)
Definition i2c_master_send {G} (client : client_ptr) (buf : list Z) (count : Z)
  : M G Z :=
  fun w => match client with
           | Ptr c =>
               Done (xfer_ret (kern w) (nxfer w))
                    (World (kern w)
                           (trace w ++ [MasterSend c (firstn (Z.to_nat count) buf)])
                           (S (nxfer w)) (devices w) (glob w))
           | _ => Oops
           end.

(** [i2c_master_recv(client, buf, count)]: one read transfer; returns the
    status together with the buffer as it is after the call. *)
Definition i2c_master_recv {G} (client : client_ptr) (count : Z)
  : M G (Z * list Z) :=
  fun w => match client with
           | Ptr c =>
               Done (xfer_ret (kern w) (nxfer w), rx_data (kern w) (nxfer w))
                    (World (kern w) (trace w ++ [MasterRecv c count])
                           (S (nxfer w)) (devices w) (glob w))
           | _ => Oops
           end.

(** [i2c_get_adapter(nr)]: [true] for a non-NULL adapter. *)
Definition i2c_get_adapter {G} (nr : Z) : M G bool :=
  fun w => Done (adapter_at (kern w) nr)
                (World (kern w) (trace w ++ [GetAdapter nr]) (nxfer w)
                       (devices w) (glob w)).

Definition i2c_put_adapter {G} : M G unit := emit PutAdapter.

(** [i2c_new_client_device(adap, info)]: a live client on errno 0, else
    [ERR_PTR(errno)]. *)
Definition i2c_new_client_device {G} (info : i2c_board_info) : M G client_ptr :=
  fun w =>
    let e := new_device_errno (kern w) info in
    if e =? 0
    then Done (Ptr info)
              (World (kern w) (trace w ++ [NewClientDevice info]) (nxfer w)
                     (devices w ++ [info]) (glob w))
    else Done (ERR_PTR e)
              (World (kern w) (trace w ++ [NewClientDevice info]) (nxfer w)
                     (devices w) (glob w)).

(** [copy_to_user(arg, &data, size)]: returns the number of bytes left
    uncopied. *)
Definition copy_to_user {G} (arg : Z) (data : aht20_data) (size : Z) : M G Z :=
  fun w =>
    if user_writable (kern w) arg
    then Done 0 (World (kern w) (trace w ++ [CopyToUser arg data]) (nxfer w)
                       (devices w) (glob w))
    else Done size w.

(** [struct i2c_driver]: name, probe callback and the id table's name. *)
Record i2c_driver (G : Type) := {
  drv_name : string;
  probe : client_ptr -> M G Z;
  id_table : string
}.
Arguments drv_name {G}.
Arguments probe {G}.
Arguments id_table {G}.

(** Probe every listed client whose name is in the driver's id table. *)
Fixpoint probe_matching {G} (drv : i2c_driver G) (ds : list i2c_client)
  : M G unit :=
  match ds with
  | [] => ret tt
  | d :: ds' =>
      (if String.eqb (dev_name d) (id_table drv)
       then (_ <- probe drv (Ptr d) ;; ret tt)
       else ret tt) ;;
      probe_matching drv ds'
  end.

(** [i2c_add_driver(&drv)]: the I2C core registers the driver and calls its
    probe on the matching clients that exist already. *)
Definition i2c_add_driver {G} (drv : i2c_driver G) : M G unit :=
  emit (AddDriver (drv_name drv)) ;;
  fun w => probe_matching drv (devices w) w.

(** ** AHT20 fixed-point conversion (the same expressions in both modules) *)

Module Aht20.

(** [((d[1] << 12) | (d[2] << 4) | (d[3] >> 4))] stored in a [u32]. *)
Definition raw_humidity (d : list Z) : Z :=
  u32 (Z.lor (Z.lor (Z.shiftl (nth 1 d 0) 12) (Z.shiftl (nth 2 d 0) 4))
             (Z.shiftr (nth 3 d 0) 4)).

(** [(((d[3] & 0x0F) << 16) | (d[4] << 8) | d[5])] stored in a [u32]. *)
Definition raw_temperature (d : list Z) : Z :=
  u32 (Z.lor (Z.lor (Z.shiftl (Z.land (nth 3 d 0) 15) 16)
                    (Z.shiftl (nth 4 d 0) 8))
             (nth 5 d 0)).

(** [(int)((rh * 1000) / 1048576)] with [rh] a [u32]. *)
Definition conv_humidity (rh : Z) : Z :=
  s32 (u32 (rh * 1000) / 1048576).

(** [(int)(((rt * 2000) / 1048576) - 500)] with [rt] a [u32]. *)
Definition conv_temperature (rt : Z) : Z :=
  s32 (u32 (u32 (rt * 2000) / 1048576 - 500)).

End Aht20.

(** ** [i2c_driver.c] (module version 1.50) *)

Module V1.

Record globals := Globals {
  etx_i2c_adapter : bool;
  etx_i2c_client_oled : client_ptr;
  etx_i2c_client_aht : client_ptr;
  select_device : Z
}.

Definition I2C_BUS_AVAILABLE : Z := 1.
Definition SLAVE_DEVICE_NAME : string := "ETX_OLED".
Definition SSD1306_SLAVE_ADDR : Z := 0x3C.
Definition AHT20_DEVICE_NAME : string := "AHT20_SENSOR".
Definition AHT20_SLAVE_ADDR : Z := 0x38.

(** The module as loaded: static initialisers and the [select_device]
    parameter, no call made yet. *)
Definition at_load (k : kernel) (sel : Z) : world globals :=
  World k [] 0 [] (Globals false NULL NULL sel).

Definition set_adapter (a : bool) : M globals unit :=
  g <- get ;;
  put (Globals a (etx_i2c_client_oled g) (etx_i2c_client_aht g) (select_device g)).
Definition set_client_oled (c : client_ptr) : M globals unit :=
  g <- get ;;
  put (Globals (etx_i2c_adapter g) c (etx_i2c_client_aht g) (select_device g)).
Definition set_client_aht (c : client_ptr) : M globals unit :=
  g <- get ;;
  put (Globals (etx_i2c_adapter g) (etx_i2c_client_oled g) c (select_device g)).

(** *** OLED *)

Definition I2C_Write (buf : list Z) (len : Z) : M globals Z :=
  g <- get ;;
  r <- i2c_master_send (etx_i2c_client_oled g) buf len ;;
  ret r.

Definition SSD1306_Write (is_cmd : bool) (data : Z) : M globals unit :=
  let buf := [if is_cmd then 0x00 else 0x40; data] in
  _ <- I2C_Write buf 2 ;;
  ret tt.

Definition SSD1306_DisplayInit : M globals unit :=
  msleep 100 ;;
  SSD1306_Write true 0xAE ;;
  SSD1306_Write true 0xD5 ;;
  SSD1306_Write true 0x80 ;;
  SSD1306_Write true 0xA8 ;;
  SSD1306_Write true 0x3F ;;
  SSD1306_Write true 0xD3 ;;
  SSD1306_Write true 0x00 ;;
  SSD1306_Write true 0x40 ;;
  SSD1306_Write true 0x8D ;;
  SSD1306_Write true 0x14 ;;
  SSD1306_Write true 0x20 ;;
  SSD1306_Write true 0x00 ;;
  SSD1306_Write true 0xA1 ;;
  SSD1306_Write true 0xC8 ;;
  SSD1306_Write true 0xDA ;;
  SSD1306_Write true 0x12 ;;
  SSD1306_Write true 0x81 ;;
  SSD1306_Write true 0x80 ;;
  SSD1306_Write true 0xD9 ;;
  SSD1306_Write true 0xF1 ;;
  SSD1306_Write true 0xDB ;;
  SSD1306_Write true 0x20 ;;
  SSD1306_Write true 0xA4 ;;
  SSD1306_Write true 0xA6 ;;
  SSD1306_Write true 0x2E ;;
  SSD1306_Write true 0xAF.

Definition SSD1306_Fill (data : Z) : M globals unit :=
  let total := 128 * 8 in
  for_loop (Z.to_nat total) (SSD1306_Write false data).

Definition etx_oled_probe (client : client_ptr) : M globals Z :=
  set_client_oled client ;;
  pr_info "ETX_OLED: Device probed successfully" ;;
  SSD1306_DisplayInit ;;
  SSD1306_Fill 0xFF ;;
  ret 0.

Definition etx_oled_remove (client : client_ptr) : M globals unit :=
  SSD1306_Fill 0x00 ;;
  pr_info "ETX_OLED: Device removed".

Definition etx_oled_driver : i2c_driver globals :=
  {| drv_name := SLAVE_DEVICE_NAME;
     probe := etx_oled_probe;
     id_table := SLAVE_DEVICE_NAME |}.

Definition oled_i2c_board_info : i2c_board_info :=
  I2C_BOARD_INFO SLAVE_DEVICE_NAME SSD1306_SLAVE_ADDR.

(** *** AHT20 *)

Definition AHT20_Init : M globals Z :=
  let cmd := [0xBE; 0x08; 0x00] in
  g <- get ;;
  r <- i2c_master_send (etx_i2c_client_aht g) cmd 3 ;;
  (if r <? 0
   then pr_err "AHT20: Initialization failed"
   else pr_info "AHT20: Initialized successfully") ;;
  msleep 40 ;;
  ret r.

(** Returns the status and, when they were written, the values stored
    through [temperature] and [humidity], in that order.  The unused local
    [cmd] is left out, and so is the degree sign of the format string. *)
Definition AHT20_ReadData : M globals (Z * option (Z * Z)) :=
  let trigger_cmd := [0xAC; 0x33; 0x00] in
  g <- get ;;
  r <- i2c_master_send (etx_i2c_client_aht g) trigger_cmd 3 ;;
  if r <? 0 then
    pr_err "AHT20: Trigger measurement failed" ;;
    ret (r, None)
  else
    msleep 80 ;;
    rd <- i2c_master_recv (etx_i2c_client_aht g) 6 ;;
    let r := fst rd in
    let data := snd rd in
    if r <? 0 then
      pr_err "AHT20: Data read failed" ;;
      ret (r, None)
    else
      let raw_humidity := Aht20.raw_humidity data in
      let raw_temperature := Aht20.raw_temperature data in
      let humidity := Aht20.conv_humidity raw_humidity in
      let temperature := Aht20.conv_temperature raw_temperature in
      printk KERN_INFO "AHT20: Temp = %d.%d C, RH = %d.%d%%"
             [Z.quot temperature 10; Z.rem temperature 10;
              Z.quot humidity 10; Z.rem humidity 10] ;;
      ret (0, Some (temperature, humidity)).

Definition aht20_probe (client : client_ptr) : M globals Z :=
  set_client_aht client ;;
  pr_info "AHT20: Device probed successfully" ;;
  _ <- AHT20_Init ;;
  _ <- AHT20_ReadData ;;
  ret 0.

Definition aht20_driver : i2c_driver globals :=
  {| drv_name := AHT20_DEVICE_NAME;
     probe := aht20_probe;
     id_table := AHT20_DEVICE_NAME |}.

Definition aht20_i2c_board_info : i2c_board_info :=
  I2C_BOARD_INFO AHT20_DEVICE_NAME AHT20_SLAVE_ADDR.

(** *** Module init *)

(** The block of [etx_driver_init] under the comment "Initialize OLED if
    selected or both". *)
Definition init_oled_if_selected (sel : Z) : M globals unit :=
  if (sel =? 0) || (sel =? 1) then
    client_oled <- i2c_new_client_device oled_i2c_board_info ;;
    if IS_ERR client_oled then
      pr_err "ETX_OLED: Failed to register OLED device"
    else
      set_client_oled client_oled ;;
      i2c_add_driver etx_oled_driver ;;
      pr_info "ETX_OLED: Driver added"
  else ret tt.

(** The block of [etx_driver_init] under the comment "Initialize AHT20 if
    selected or both". *)
Definition init_aht20_if_selected (sel : Z) : M globals unit :=
  if (sel =? 0) || (sel =? 2) then
    client_aht <- i2c_new_client_device aht20_i2c_board_info ;;
    if IS_ERR client_aht then
      pr_err "AHT20: Failed to register AHT20 device"
    else
      set_client_aht client_aht ;;
      i2c_add_driver aht20_driver ;;
      pr_info "AHT20: Driver added"
  else ret tt.

Definition etx_driver_init : M globals Z :=
  g <- get ;;
  let sel := select_device g in
  printk KERN_INFO "ETX_I2C: Module init started (select_device = %d)" [sel] ;;
  printk KERN_INFO "ETX_I2C: Selected device = %d" [sel] ;;
  adap <- i2c_get_adapter I2C_BUS_AVAILABLE ;;
  set_adapter adap ;;
  if negb adap then
    printk KERN_ERR "ETX_I2C: Cannot get I2C adapter %d" [I2C_BUS_AVAILABLE] ;;
    ret (- ENODEV)
  else
    init_oled_if_selected sel ;;
    init_aht20_if_selected sel ;;
    i2c_put_adapter ;;
    printk KERN_ALERT "ETX_I2C: Module loaded and visible on console!" [] ;;
    ret 0.

End V1.

(** ** [i2c_client_driver.c] (module version 2.0) *)

Module V2.

Record globals := Globals {
  i2c_adap : bool;
  oled_client : client_ptr;
  aht20_client : client_ptr
}.

Definition I2C_BUS_AVAILABLE : Z := 1.
Definition SSD1306_ADDR : Z := 0x3C.
Definition AHT20_ADDR : Z := 0x38.
Definition OLED_DEV_NAME : string := "etx_oled".
Definition AHT20_DEV_NAME : string := "etx_aht20".

(** ['o'] is 111, ['a'] is 97, [sizeof(struct aht20_data)] is 8. *)
Definition OLED_CLEAR : Z := _IO 111 1.
Definition OLED_FILL : Z := _IO 111 2.
Definition AHT20_READ_DATA : Z := _IOR 97 1 8.

(** The module as loaded: zero-initialised statics, no call made yet. *)
Definition at_load (k : kernel) : world globals :=
  World k [] 0 [] (Globals false NULL NULL).

Definition set_adap (a : bool) : M globals unit :=
  g <- get ;; put (Globals a (oled_client g) (aht20_client g)).
Definition set_oled_client (c : client_ptr) : M globals unit :=
  g <- get ;; put (Globals (i2c_adap g) c (aht20_client g)).
Definition set_aht20_client (c : client_ptr) : M globals unit :=
  g <- get ;; put (Globals (i2c_adap g) (oled_client g) c).

(** *** SSD1306 *)

Definition oled_write (mode data : Z) : M globals unit :=
  let buf := [mode; data] in
  g <- get ;;
  _ <- i2c_master_send (oled_client g) buf 2 ;;
  ret tt.

Definition oled_init : M globals unit :=
  msleep 100 ;;
  oled_write 0x00 0xAE ;;
  oled_write 0x00 0xA8 ;;
  oled_write 0x00 0x3F ;;
  oled_write 0x00 0xAF.

Definition oled_clear : M globals unit :=
  for_loop (Z.to_nat 1024) (oled_write 0x40 0x00).

Definition oled_fill : M globals unit :=
  for_loop (Z.to_nat 1024) (oled_write 0x40 0xFF).

Definition oled_ioctl (cmd arg : Z) : M globals Z :=
  if cmd =? OLED_CLEAR then
    oled_clear ;; ret 0
  else if cmd =? OLED_FILL then
    oled_fill ;; ret 0
  else
    ret (- EINVAL).

(** *** AHT20 *)

Definition aht20_trigger : M globals Z :=
  let cmd := [0xAC; 0x33; 0x00] in
  g <- get ;;
  i2c_master_send (aht20_client g) cmd 3.

(** Returns the status and the values stored through [t] and [h]. *)
Definition aht20_read_raw : M globals (Z * (Z * Z)) :=
  msleep 80 ;;
  g <- get ;;
  rd <- i2c_master_recv (aht20_client g) 6 ;;
  let d := snd rd in
  let h := Aht20.raw_humidity d in
  let t := Aht20.raw_temperature d in
  ret (0, (t, h)).

Definition aht20_ioctl (cmd arg : Z) : M globals Z :=
  if negb (cmd =? AHT20_READ_DATA) then
    ret (- EINVAL)
  else
    _ <- aht20_trigger ;;
    raw <- aht20_read_raw ;;
    let rt := fst (snd raw) in
    let rh := snd (snd raw) in
    let data := {| temperature := Aht20.conv_temperature rt;
                   humidity := Aht20.conv_humidity rh |} in
    left <- copy_to_user arg data 8 ;;
    if negb (left =? 0) then
      ret (- EFAULT)
    else
      ret 0.

(** *** Probe *)

Definition oled_probe (client : client_ptr) : M globals Z :=
  set_oled_client client ;;
  oled_init ;;
  pr_info "SSD1306 OLED probed" ;;
  ret 0.

Definition aht20_probe (client : client_ptr) : M globals Z :=
  set_aht20_client client ;;
  pr_info "AHT20 sensor probed" ;;
  ret 0.

Definition oled_driver : i2c_driver globals :=
  {| drv_name := "ssd1306"; probe := oled_probe; id_table := "ssd1306" |}.

Definition aht20_driver : i2c_driver globals :=
  {| drv_name := "aht20"; probe := aht20_probe; id_table := "aht20" |}.

Definition oled_info : i2c_board_info := I2C_BOARD_INFO "ssd1306" SSD1306_ADDR.
Definition aht20_info : i2c_board_info := I2C_BOARD_INFO "aht20" AHT20_ADDR.

(** *** Module init *)

Definition etx_init : M globals Z :=
  adap <- i2c_get_adapter I2C_BUS_AVAILABLE ;;
  set_adap adap ;;
  if negb adap then
    ret (- ENODEV)
  else
    c <- i2c_new_client_device oled_info ;;
    set_oled_client c ;;
    if IS_ERR c then
      ret (PTR_ERR c)
    else
      c <- i2c_new_client_device aht20_info ;;
      set_aht20_client c ;;
      if IS_ERR c then
        ret (PTR_ERR c)
      else
        i2c_add_driver oled_driver ;;
        i2c_add_driver aht20_driver ;;
        emit (Chrdev "alloc_chrdev_region" OLED_DEV_NAME) ;;
        emit (Chrdev "cdev_init" OLED_DEV_NAME) ;;
        emit (Chrdev "cdev_add" OLED_DEV_NAME) ;;
        emit (Chrdev "alloc_chrdev_region" AHT20_DEV_NAME) ;;
        emit (Chrdev "cdev_init" AHT20_DEV_NAME) ;;
        emit (Chrdev "cdev_add" AHT20_DEV_NAME) ;;
        pr_info "ETX I2C Driver Loaded" ;;
        ret 0.

End V2.

(** ** Vocabulary of the properties *)

(** The world after [n] successive write transfers of [buf] to [c]. *)
Definition sends {G} (c : i2c_client) (buf : list Z) (n : nat) (w : world G)
  : world G :=
  World (kern w) (trace w ++ repeat (MasterSend c buf) n) (n + nxfer w)
        (devices w) (glob w).

(** Trace vocabulary of the display: a command write carries the control
    byte 0x00, a data write the control byte 0x40, each followed by one
    payload byte. *)
Definition cmd_write (c : i2c_client) (b : Z) : event := MasterSend c [0x00; b].
Definition data_write (c : i2c_client) (b : Z) : event := MasterSend c [0x40; b].

(** The 128 x 8 data writes of one full-screen fill. *)
Definition fill_events (c : i2c_client) (pattern : Z) : list event :=
  repeat (data_write c pattern) (Z.to_nat (128 * 8)).

(** The command bytes of [SSD1306_DisplayInit], in program order. *)
Definition V1_init_cmds : list Z :=
  [0xAE; 0xD5; 0x80; 0xA8; 0x3F; 0xD3; 0x00; 0x40; 0x8D; 0x14; 0x20; 0x00;
   0xA1; 0xC8; 0xDA; 0x12; 0x81; 0x80; 0xD9; 0xF1; 0xDB; 0x20; 0xA4; 0xA6;
   0x2E; 0xAF].

(** The command bytes of [oled_init], in program order. *)
Definition V2_init_cmds : list Z := [0xAE; 0xA8; 0x3F; 0xAF].

(** A kernel on which everything succeeds; the sensor answers with the
    bytes 00 19 99 9A 66 66. *)
Definition good_kernel : kernel :=
  {| adapter_at := fun _ => true;
     new_device_errno := fun _ => 0;
     xfer_ret := fun _ => 6;
     rx_data := fun _ => [0x00; 0x19; 0x99; 0x9A; 0x66; 0x66];
     user_writable := fun _ => true |}.

(** A kernel on which every bus transfer fails with [-EIO]; the receive
    buffer is left holding DE AD BE EF 12 34. *)
Definition failing_bus : kernel :=
  {| adapter_at := fun _ => true;
     new_device_errno := fun _ => 0;
     xfer_ret := fun _ => - EIO;
     rx_data := fun _ => [0xDE; 0xAD; 0xBE; 0xEF; 0x12; 0x34];
     user_writable := fun _ => true |}.

(** A kernel on which the client device at address [addr] cannot be
    created ([-EBUSY]) and everything else succeeds. *)
Definition busy_at (addr : Z) : kernel :=
  {| adapter_at := fun _ => true;
     new_device_errno := fun info => if dev_addr info =? addr then - EBUSY else 0;
     xfer_ret := fun _ => 6;
     rx_data := fun _ => [0x00; 0x19; 0x99; 0x9A; 0x66; 0x66];
     user_writable := fun _ => true |}.

(** [i2c_driver.c] with both clients bound, on kernel [k]. *)
Definition V1_bound (k : kernel) : world V1.globals :=
  World k [] 0 [V1.oled_i2c_board_info; V1.aht20_i2c_board_info]
        (V1.Globals true (Ptr V1.oled_i2c_board_info)
                    (Ptr V1.aht20_i2c_board_info) 0).

(** [i2c_client_driver.c] with both clients bound, on kernel [k]. *)
Definition V2_bound (k : kernel) : world V2.globals :=
  World k [] 0 [V2.oled_info; V2.aht20_info]
        (V2.Globals true (Ptr V2.oled_info) (Ptr V2.aht20_info)).

(** ** Vocabulary of the further properties *)

(** A kernel without an I2C adapter at any bus number. *)
Definition no_adapter : kernel :=
  {| adapter_at := fun _ => false;
     new_device_errno := fun _ => 0;
     xfer_ret := fun _ => 6;
     rx_data := fun _ => [0x00; 0x19; 0x99; 0x9A; 0x66; 0x66];
     user_writable := fun _ => true |}.

(** A kernel on which no user address is writable. *)
Definition unwritable_user : kernel :=
  {| adapter_at := fun _ => true;
     new_device_errno := fun _ => 0;
     xfer_ret := fun _ => 6;
     rx_data := fun _ => [0x00; 0x19; 0x99; 0x9A; 0x66; 0x66];
     user_writable := fun _ => false |}.

(** A kernel whose sensor answers 1C 80 00 03 F5 C3: half a degree below
    zero. *)
Definition cold_sensor : kernel :=
  {| adapter_at := fun _ => true;
     new_device_errno := fun _ => 0;
     xfer_ret := fun _ => 6;
     rx_data := fun _ => [0x1C; 0x80; 0x00; 0x03; 0xF5; 0xC3];
     user_writable := fun _ => true |}.

(** A kernel on which the trigger goes through and the read that follows
    fails with [-EIO]. *)
Definition read_fails : kernel :=
  {| adapter_at := fun _ => true;
     new_device_errno := fun _ => 0;
     xfer_ret := fun n => match n with O => 3 | _ => - EIO end;
     rx_data := fun _ => [0xDE; 0xAD; 0xBE; 0xEF; 0x12; 0x34];
     user_writable := fun _ => true |}.

(** The format of the reading logged by [AHT20_ReadData]. *)
Definition reading_fmt : string := "AHT20: Temp = %d.%d C, RH = %d.%d%%".

(** A Fill request followed by a Clear request on the display channel. *)
Definition fill_then_clear (arg1 arg2 : Z) : M V2.globals (Z * Z) :=
  r1 <- V2.oled_ioctl V2.OLED_FILL arg1 ;;
  r2 <- V2.oled_ioctl V2.OLED_CLEAR arg2 ;;
  ret (r1, r2).

(** The world [etx_init] leaves behind when everything succeeded. *)
Definition V2_loaded (k : kernel) : world V2.globals :=
  World k
        ([GetAdapter 1;
          NewClientDevice V2.oled_info;
          NewClientDevice V2.aht20_info;
          AddDriver "ssd1306";
          Msleep 100]
           ++ map (cmd_write V2.oled_info) V2_init_cmds
           ++ [Printk KERN_INFO "SSD1306 OLED probed" [];
               AddDriver "aht20";
               Printk KERN_INFO "AHT20 sensor probed" [];
               Chrdev "alloc_chrdev_region" V2.OLED_DEV_NAME;
               Chrdev "cdev_init" V2.OLED_DEV_NAME;
               Chrdev "cdev_add" V2.OLED_DEV_NAME;
               Chrdev "alloc_chrdev_region" V2.AHT20_DEV_NAME;
               Chrdev "cdev_init" V2.AHT20_DEV_NAME;
               Chrdev "cdev_add" V2.AHT20_DEV_NAME;
               Printk KERN_INFO "ETX I2C Driver Loaded" []])
        4 [V2.oled_info; V2.aht20_info]
        (V2.Globals true (Ptr V2.oled_info) (Ptr V2.aht20_info)).

(** * Properties *)

(** ** Integer conversions *)

Section Conversions.

Lemma u32_small (x : Z) : 0 <= x < 2 ^ 32 -> u32 x = x.
Proof. intros H. unfold u32. now apply Z.mod_small. Qed.

Lemma s32_u32 (x : Z) : - 2 ^ 31 <= x < 2 ^ 31 -> s32 (u32 x) = x.
Proof.
  intros H. unfold s32, u32. rewrite Z.mod_mod by (compute; discriminate).
  change (2 ^ 32) with 4294967296 in *. change (2 ^ 31) with 2147483648 in *.
  destruct (Z.ltb_spec (x mod 4294967296) 2147483648) as [L | L];
    revert L; Z.div_mod_to_equations; lia.
Qed.

Lemma s32_small (x : Z) : 0 <= x < 2 ^ 31 -> s32 x = x.
Proof.
  intros H. rewrite <- (u32_small x) at 1.
  - apply s32_u32. lia.
  - change (2 ^ 32) with 4294967296. change (2 ^ 31) with 2147483648 in H. lia.
Qed.

(** Bitwise or keeps two [n]-bit values within [n] bits. *)
Lemma lor_below (n a b : Z) :
  0 <= n -> 0 <= a < 2 ^ n -> 0 <= b < 2 ^ n -> 0 <= Z.lor a b < 2 ^ n.
Proof.
  intros Hn Ha Hb. split.
  - apply Z.lor_nonneg. lia.
  - destruct (Z.eq_dec (Z.lor a b) 0) as [E | E].
    + rewrite E. apply Z.pow_pos_nonneg; lia.
    + assert (0 <= Z.lor a b) by (apply Z.lor_nonneg; lia).
      assert (0 < n).
      { destruct (Z.eq_dec n 0) as [-> | ]; [| lia].
        change (2 ^ 0) with 1 in *.
        assert (a = 0) as -> by lia. assert (b = 0) as -> by lia.
        now contradiction E. }
      apply Z.log2_lt_pow2; [lia |].
      rewrite Z.log2_lor by lia.
      apply Z.max_lub_lt.
      * destruct (Z.eq_dec a 0) as [-> | ]; [simpl; lia |].
        apply Z.log2_lt_pow2; lia.
      * destruct (Z.eq_dec b 0) as [-> | ]; [simpl; lia |].
        apply Z.log2_lt_pow2; lia.
Qed.

Lemma shiftl_byte_below (b k n : Z) :
  is_u8 b -> 0 <= k -> n = k + 8 -> 0 <= Z.shiftl b k < 2 ^ n.
Proof.
  intros Hb Hk ->. unfold is_u8 in Hb. rewrite Z.shiftl_mul_pow2 by lia.
  rewrite Z.pow_add_r by lia. change (2 ^ 8) with 256.
  assert (0 < 2 ^ k) by (apply Z.pow_pos_nonneg; lia). nia.
Qed.

Lemma pow2_mono (a b x : Z) : 0 <= a <= b -> 0 <= x < 2 ^ a -> 0 <= x < 2 ^ b.
Proof.
  intros Hab Hx. split; [lia |].
  apply Z.lt_le_trans with (2 ^ a); [lia |].
  apply Z.pow_le_mono_r; lia.
Qed.

(** The shifted bytes stay inside an [int], so the stored [u32] is the
    bitwise expression itself, and it has 20 bits. *)
Lemma raw_humidity_bits (d : list Z) :
  is_u8 (nth 1 d 0) -> is_u8 (nth 2 d 0) -> is_u8 (nth 3 d 0) ->
  Aht20.raw_humidity d =
    Z.lor (Z.lor (Z.shiftl (nth 1 d 0) 12) (Z.shiftl (nth 2 d 0) 4))
          (Z.shiftr (nth 3 d 0) 4)
  /\ 0 <= Aht20.raw_humidity d < 2 ^ 20.
Proof.
  intros H1 H2 H3.
  assert (B : 0 <= Z.lor (Z.lor (Z.shiftl (nth 1 d 0) 12) (Z.shiftl (nth 2 d 0) 4))
                         (Z.shiftr (nth 3 d 0) 4) < 2 ^ 20).
  { apply lor_below; [lia | apply lor_below; [lia | |] |].
    - apply shiftl_byte_below; auto; lia.
    - apply (pow2_mono 12 20); [lia |]. apply shiftl_byte_below; auto; lia.
    - unfold is_u8 in H3. rewrite Z.shiftr_div_pow2 by lia.
      change (2 ^ 4) with 16. change (2 ^ 20) with 1048576.
      Z.div_mod_to_equations; lia. }
  unfold Aht20.raw_humidity. rewrite u32_small; [auto |].
  apply (pow2_mono 20 32); [lia | exact B].
Qed.

Lemma raw_temperature_bits (d : list Z) :
  is_u8 (nth 3 d 0) -> is_u8 (nth 4 d 0) -> is_u8 (nth 5 d 0) ->
  Aht20.raw_temperature d =
    Z.lor (Z.lor (Z.shiftl (Z.land (nth 3 d 0) 15) 16) (Z.shiftl (nth 4 d 0) 8))
          (nth 5 d 0)
  /\ 0 <= Aht20.raw_temperature d < 2 ^ 20.
Proof.
  intros H3 H4 H5.
  assert (N : 0 <= Z.land (nth 3 d 0) 15 < 16).
  { change 15 with (Z.ones 4). rewrite Z.land_ones by lia.
    change (2 ^ 4) with 16. apply Z.mod_pos_bound. lia. }
  assert (B : 0 <= Z.lor (Z.lor (Z.shiftl (Z.land (nth 3 d 0) 15) 16)
                                (Z.shiftl (nth 4 d 0) 8))
                         (nth 5 d 0) < 2 ^ 20).
  { apply lor_below; [lia | apply lor_below; [lia | |] |].
    - rewrite Z.shiftl_mul_pow2 by lia.
      change (2 ^ 16) with 65536. change (2 ^ 20) with 1048576. lia.
    - apply (pow2_mono 16 20); [lia |]. apply shiftl_byte_below; auto; lia.
    - apply (pow2_mono 8 20); [lia |]. exact H5. }
  unfold Aht20.raw_temperature. rewrite u32_small; [auto |].
  apply (pow2_mono 20 32); [lia | exact B].
Qed.

(** On 20-bit raw values the 32-bit products do not wrap. *)
Lemma conv_humidity_exact (rh : Z) :
  0 <= rh < 2 ^ 20 -> Aht20.conv_humidity rh = rh * 1000 / 2 ^ 20.
Proof.
  intros H. unfold Aht20.conv_humidity.
  change (2 ^ 20) with 1048576 in *.
  rewrite u32_small by (change (2 ^ 32) with 4294967296; lia).
  apply s32_small. change (2 ^ 31) with 2147483648.
  Z.div_mod_to_equations; lia.
Qed.

Lemma conv_temperature_exact (rt : Z) :
  0 <= rt < 2 ^ 20 -> Aht20.conv_temperature rt = rt * 2000 / 2 ^ 20 - 500.
Proof.
  intros H. unfold Aht20.conv_temperature.
  change (2 ^ 20) with 1048576 in *.
  rewrite (u32_small (rt * 2000)) by (change (2 ^ 32) with 4294967296; lia).
  apply s32_u32. change (2 ^ 31) with 2147483648.
  Z.div_mod_to_equations; lia.
Qed.

End Conversions.

(** C2: for every 20-bit raw temperature the value stored in [temperature]
    (32-bit unsigned arithmetic, then read as a signed [int]) lies in
    [-500, 1500). *)
Theorem temperature_in_range (raw_temperature : Z) :
  0 <= raw_temperature < 2 ^ 20 ->
  -500 <= Aht20.conv_temperature raw_temperature < 1500.
Proof.
  intros H. rewrite conv_temperature_exact by exact H.
  change (2 ^ 20) with 1048576 in *. Z.div_mod_to_equations; lia.
Qed.

Lemma temperature_in_range_witness :
  0 <= 0xA6666 < 2 ^ 20 /\ -500 <= Aht20.conv_temperature 0xA6666 < 1500.
Proof.
  split; [| apply (temperature_in_range 0xA6666)];
    change (2 ^ 20) with 1048576; lia.
Defined.

(** C3: for every 20-bit raw humidity the value stored in [humidity]
    (32-bit unsigned arithmetic) lies in [0, 1000). *)
Theorem humidity_in_range (raw_humidity : Z) :
  0 <= raw_humidity < 2 ^ 20 ->
  0 <= Aht20.conv_humidity raw_humidity < 1000.
Proof.
  intros H. rewrite conv_humidity_exact by exact H.
  change (2 ^ 20) with 1048576 in *. Z.div_mod_to_equations; lia.
Qed.

Lemma humidity_in_range_witness :
  0 <= 0x19999 < 2 ^ 20 /\ 0 <= Aht20.conv_humidity 0x19999 < 1000.
Proof.
  split; [| apply (humidity_in_range 0x19999)];
    change (2 ^ 20) with 1048576; lia.
Defined.

(** ** Running driver code *)

Section Running.

Context {G : Type}.

Lemma bind_done {A B} (m : M G A) (f : A -> M G B) (w w' : world G) (a : A) :
  m w = Done a w' -> bind m f w = f a w'.
Proof. intros H. unfold bind. now rewrite H. Qed.

Lemma for_loop_sends (body : M G unit) (c : i2c_client) (buf : list Z) (g : G) :
  (forall w, glob w = g -> body w = Done tt (sends c buf 1 w)) ->
  forall n w, glob w = g -> for_loop n body w = Done tt (sends c buf n w).
Proof.
  intros Hb n. induction n as [| n IH]; intros w Hg.
  - destruct w. unfold sends. simpl. now rewrite app_nil_r.
  - simpl for_loop. rewrite (bind_done _ _ _ _ _ (Hb w Hg)).
    rewrite IH by exact Hg.
    unfold sends. simpl. rewrite <- app_assoc, Nat.add_succ_r. reflexivity.
Qed.

End Running.

Section DisplayRuns.

Lemma V1_Write_run (is_cmd : bool) (data : Z) (w : world V1.globals) c :
  V1.etx_i2c_client_oled (glob w) = Ptr c ->
  V1.SSD1306_Write is_cmd data w =
    Done tt (sends c [if is_cmd then 0x00 else 0x40; data] 1 w).
Proof.
  intros H. unfold V1.SSD1306_Write, V1.I2C_Write, bind, get, ret, i2c_master_send.
  rewrite H. reflexivity.
Qed.

Lemma V1_Fill_run (data : Z) (w : world V1.globals) c :
  V1.etx_i2c_client_oled (glob w) = Ptr c ->
  V1.SSD1306_Fill data w =
    Done tt (World (kern w) (trace w ++ fill_events c data)
                   (Z.to_nat (128 * 8) + nxfer w) (devices w) (glob w)).
Proof.
  intros H. unfold V1.SSD1306_Fill.
  apply (for_loop_sends _ c [0x40; data] (glob w)); [| reflexivity].
  intros w0 Hg. apply (V1_Write_run false). now rewrite Hg.
Qed.

Lemma V1_DisplayInit_run (w : world V1.globals) c :
  V1.etx_i2c_client_oled (glob w) = Ptr c ->
  V1.SSD1306_DisplayInit w =
    Done tt (World (kern w)
                   (trace w ++ Msleep 100 :: map (cmd_write c) V1_init_cmds)
                   (26 + nxfer w) (devices w) (glob w)).
Proof.
  destruct w as [k t n ds [a o h s]]. simpl. intros ->.
  cbn. repeat rewrite <- app_assoc. reflexivity.
Qed.

Lemma V2_write_run (mode data : Z) (w : world V2.globals) c :
  V2.oled_client (glob w) = Ptr c ->
  V2.oled_write mode data w = Done tt (sends c [mode; data] 1 w).
Proof.
  intros H. unfold V2.oled_write, bind, get, ret, i2c_master_send.
  rewrite H. reflexivity.
Qed.

Lemma V2_clear_run (w : world V2.globals) c :
  V2.oled_client (glob w) = Ptr c ->
  V2.oled_clear w =
    Done tt (World (kern w) (trace w ++ fill_events c 0x00)
                   (Z.to_nat (128 * 8) + nxfer w) (devices w) (glob w)).
Proof.
  intros H. unfold V2.oled_clear.
  apply (for_loop_sends _ c [0x40; 0x00] (glob w)); [| reflexivity].
  intros w0 Hg. apply V2_write_run. now rewrite Hg.
Qed.

Lemma V2_fill_run (w : world V2.globals) c :
  V2.oled_client (glob w) = Ptr c ->
  V2.oled_fill w =
    Done tt (World (kern w) (trace w ++ fill_events c 0xFF)
                   (Z.to_nat (128 * 8) + nxfer w) (devices w) (glob w)).
Proof.
  intros H. unfold V2.oled_fill.
  apply (for_loop_sends _ c [0x40; 0xFF] (glob w)); [| reflexivity].
  intros w0 Hg. apply V2_write_run. now rewrite Hg.
Qed.

Lemma V2_init_run (w : world V2.globals) c :
  V2.oled_client (glob w) = Ptr c ->
  V2.oled_init w =
    Done tt (World (kern w)
                   (trace w ++ Msleep 100 :: map (cmd_write c) V2_init_cmds)
                   (4 + nxfer w) (devices w) (glob w)).
Proof.
  destruct w as [k t n ds [a o h]]. simpl. intros ->.
  cbn. repeat rewrite <- app_assoc. reflexivity.
Qed.

Lemma fill_events_length (c : i2c_client) (pattern : Z) :
  Z.of_nat (List.length (fill_events c pattern)) = 1024.
Proof. unfold fill_events. rewrite repeat_length. reflexivity. Qed.

Lemma fill_events_all (c : i2c_client) (pattern : Z) (e : event) :
  In e (fill_events c pattern) -> e = MasterSend c [0x40; pattern].
Proof. unfold fill_events. intros H. now apply repeat_spec in H. Qed.

End DisplayRuns.

(** ** Display: fill, clear, control requests *)

Section ProbeRuns.

Lemma V1_oled_probe_run (w : world V1.globals) (c : i2c_client) :
  V1.etx_oled_probe (Ptr c) w =
    Done 0
      (World (kern w)
             (trace w
                ++ Printk KERN_INFO "ETX_OLED: Device probed successfully" []
                :: Msleep 100
                :: map (cmd_write c) V1_init_cmds ++ fill_events c 0xFF)
             (Z.to_nat (128 * 8) + (26 + nxfer w)) (devices w)
             (V1.Globals (V1.etx_i2c_adapter (glob w)) (Ptr c)
                         (V1.etx_i2c_client_aht (glob w))
                         (V1.select_device (glob w)))).
Proof.
  unfold V1.etx_oled_probe.
  erewrite bind_done by reflexivity.
  erewrite bind_done by reflexivity.
  erewrite bind_done by (apply (V1_DisplayInit_run _ c); reflexivity).
  erewrite bind_done by (apply (V1_Fill_run _ _ c); reflexivity).
  unfold ret. cbn [kern trace nxfer devices glob].
  repeat rewrite <- app_assoc. reflexivity.
Qed.

Lemma V2_oled_probe_run (w : world V2.globals) (c : i2c_client) :
  V2.oled_probe (Ptr c) w =
    Done 0
      (World (kern w)
             (trace w
                ++ Msleep 100
                :: map (cmd_write c) V2_init_cmds
                ++ [Printk KERN_INFO "SSD1306 OLED probed" []])
             (4 + nxfer w) (devices w)
             (V2.Globals (V2.i2c_adap (glob w)) (Ptr c)
                         (V2.aht20_client (glob w)))).
Proof.
  unfold V2.oled_probe.
  erewrite bind_done by reflexivity.
  erewrite bind_done by (apply (V2_init_run _ c); reflexivity).
  erewrite bind_done by reflexivity.
  unfold ret. cbn [kern trace nxfer devices glob].
  repeat rewrite <- app_assoc. reflexivity.
Qed.

End ProbeRuns.

(** C7: [SSD1306_Fill(pattern)] issues exactly 1024 write transfers, each
    the data control byte 0x40 followed by the one pattern byte, whatever
    the pattern; [oled_fill] is that stream for 0xFF, and clearing
    ([oled_clear], and the fill of [etx_oled_remove]) is that stream for
    0x00. *)
Theorem fill_issues_1024_data_writes
        (pattern : Z) (w1 : world V1.globals) (w2 : world V2.globals)
        (c1 c2 : i2c_client) :
  V1.etx_i2c_client_oled (glob w1) = Ptr c1 ->
  V2.oled_client (glob w2) = Ptr c2 ->
  (exists w', V1.SSD1306_Fill pattern w1 = Done tt w'
              /\ trace w' = trace w1 ++ fill_events c1 pattern
              /\ Z.of_nat (nxfer w') = Z.of_nat (nxfer w1) + 1024)
  /\ (exists w', V2.oled_fill w2 = Done tt w'
                 /\ trace w' = trace w2 ++ fill_events c2 0xFF
                 /\ Z.of_nat (nxfer w') = Z.of_nat (nxfer w2) + 1024)
  /\ (exists w', V2.oled_clear w2 = Done tt w'
                 /\ trace w' = trace w2 ++ fill_events c2 0x00
                 /\ Z.of_nat (nxfer w') = Z.of_nat (nxfer w2) + 1024)
  /\ (exists w', V1.etx_oled_remove (Ptr c1) w1 = Done tt w'
                 /\ trace w' = trace w1 ++ fill_events c1 0x00
                                ++ [Printk KERN_INFO "ETX_OLED: Device removed" []])
  /\ Z.of_nat (List.length (fill_events c1 pattern)) = 128 * 8
  /\ (forall e, In e (fill_events c1 pattern) -> e = MasterSend c1 [0x40; pattern]).
Proof.
  intros H1 H2.
  assert (N : forall n, Z.of_nat (Z.to_nat (128 * 8) + n) = Z.of_nat n + 1024).
  { intros n. rewrite Nat2Z.inj_add, Z2Nat.id; lia. }
  split; [| split; [| split; [| split; [| split]]]].
  - eexists. split; [apply (V1_Fill_run _ _ c1 H1) |]. split; [reflexivity | apply N].
  - eexists. split; [apply (V2_fill_run _ c2 H2) |]. split; [reflexivity | apply N].
  - eexists. split; [apply (V2_clear_run _ c2 H2) |]. split; [reflexivity | apply N].
  - eexists. split.
    + unfold V1.etx_oled_remove.
      erewrite bind_done by (apply (V1_Fill_run _ _ c1 H1)). reflexivity.
    + cbn [trace]. now rewrite <- app_assoc.
  - apply fill_events_length.
  - apply fill_events_all.
Qed.

Lemma fill_issues_1024_data_writes_witness :
  V1.etx_i2c_client_oled (glob (V1_bound good_kernel)) = Ptr V1.oled_i2c_board_info
  /\ V2.oled_client (glob (V2_bound good_kernel)) = Ptr V2.oled_info
  /\ exists w', V1.SSD1306_Fill 0xA5 (V1_bound good_kernel) = Done tt w'
                /\ trace w' = fill_events V1.oled_i2c_board_info 0xA5
                /\ Z.of_nat (nxfer w') = 1024.
Proof.
  split; [reflexivity |]. split; [reflexivity |].
  destruct (fill_issues_1024_data_writes
              0xA5 (V1_bound good_kernel) (V2_bound good_kernel)
              V1.oled_i2c_board_info V2.oled_info eq_refl eq_refl)
    as [[w' [R [T N]]] _].
  exists w'. split; [exact R |]. split; [exact T | exact N].
Defined.

(** C9: a request code that is not a recognised kind of its channel is
    answered with [-EINVAL] and leaves the world as it was: no bus transfer,
    no other call. *)
Theorem unknown_request_is_rejected
        (cmd_display cmd_sensor arg : Z) (w : world V2.globals) :
  cmd_display <> V2.OLED_CLEAR ->
  cmd_display <> V2.OLED_FILL ->
  cmd_sensor <> V2.AHT20_READ_DATA ->
  V2.oled_ioctl cmd_display arg w = Done (- EINVAL) w
  /\ V2.aht20_ioctl cmd_sensor arg w = Done (- EINVAL) w.
Proof.
  intros Hc Hf Hr. unfold V2.oled_ioctl, V2.aht20_ioctl.
  apply Z.eqb_neq in Hc, Hf, Hr. rewrite Hc, Hf, Hr. split; reflexivity.
Qed.

Lemma unknown_request_is_rejected_witness :
  V2.AHT20_READ_DATA <> V2.OLED_CLEAR
  /\ V2.AHT20_READ_DATA <> V2.OLED_FILL
  /\ V2.OLED_CLEAR <> V2.AHT20_READ_DATA
  /\ V2.oled_ioctl V2.AHT20_READ_DATA 0 (V2_bound good_kernel)
     = Done (- EINVAL) (V2_bound good_kernel)
  /\ V2.aht20_ioctl V2.OLED_CLEAR 0 (V2_bound good_kernel)
     = Done (- EINVAL) (V2_bound good_kernel).
Proof.
  assert (A : V2.AHT20_READ_DATA <> V2.OLED_CLEAR) by (vm_compute; discriminate).
  assert (B : V2.AHT20_READ_DATA <> V2.OLED_FILL) by (vm_compute; discriminate).
  assert (C : V2.OLED_CLEAR <> V2.AHT20_READ_DATA) by (vm_compute; discriminate).
  split; [exact A |]. split; [exact B |]. split; [exact C |].
  exact (unknown_request_is_rejected
           V2.AHT20_READ_DATA V2.OLED_CLEAR 0 (V2_bound good_kernel) A B C).
Defined.

(** C10: every display operation completes with a result that is fixed
    before any transfer is made: the worlds range over all kernels, hence
    over all transfer statuses, and neither the returned value nor the
    resulting trace and globals mention [xfer_ret].  A Clear or Fill
    request returns 0 after its 1024 transfers, whatever they returned. *)
Theorem display_operations_ignore_bus_status
        (w1 : world V1.globals) (w2 : world V2.globals)
        (c1 c2 : i2c_client) (arg : Z) :
  V1.etx_i2c_client_oled (glob w1) = Ptr c1 ->
  V2.oled_client (glob w2) = Ptr c2 ->
  (forall is_cmd data,
      V1.SSD1306_Write is_cmd data w1
      = Done tt (sends c1 [if is_cmd then 0x00 else 0x40; data] 1 w1))
  /\ V1.SSD1306_DisplayInit w1
     = Done tt (World (kern w1)
                      (trace w1 ++ Msleep 100 :: map (cmd_write c1) V1_init_cmds)
                      (26 + nxfer w1) (devices w1) (glob w1))
  /\ (forall data,
         V1.SSD1306_Fill data w1
         = Done tt (World (kern w1) (trace w1 ++ fill_events c1 data)
                          (Z.to_nat (128 * 8) + nxfer w1) (devices w1) (glob w1)))
  /\ (exists w', V1.etx_oled_probe (Ptr c1) w1 = Done 0 w')
  /\ (forall mode data,
         V2.oled_write mode data w2 = Done tt (sends c2 [mode; data] 1 w2))
  /\ V2.oled_init w2
     = Done tt (World (kern w2)
                      (trace w2 ++ Msleep 100 :: map (cmd_write c2) V2_init_cmds)
                      (4 + nxfer w2) (devices w2) (glob w2))
  /\ V2.oled_clear w2
     = Done tt (World (kern w2) (trace w2 ++ fill_events c2 0x00)
                      (Z.to_nat (128 * 8) + nxfer w2) (devices w2) (glob w2))
  /\ V2.oled_fill w2
     = Done tt (World (kern w2) (trace w2 ++ fill_events c2 0xFF)
                      (Z.to_nat (128 * 8) + nxfer w2) (devices w2) (glob w2))
  /\ V2.oled_ioctl V2.OLED_CLEAR arg w2
     = Done 0 (World (kern w2) (trace w2 ++ fill_events c2 0x00)
                     (Z.to_nat (128 * 8) + nxfer w2) (devices w2) (glob w2))
  /\ V2.oled_ioctl V2.OLED_FILL arg w2
     = Done 0 (World (kern w2) (trace w2 ++ fill_events c2 0xFF)
                     (Z.to_nat (128 * 8) + nxfer w2) (devices w2) (glob w2)).
Proof.
  intros H1 H2.
  split; [| split; [| split; [| split; [| split; [| split; [| split;
    [| split; [| split]]]]]]]].
  - intros. now apply V1_Write_run.
  - now apply V1_DisplayInit_run.
  - intros. now apply V1_Fill_run.
  - eexists. apply V1_oled_probe_run.
  - intros. now apply V2_write_run.
  - now apply V2_init_run.
  - now apply V2_clear_run.
  - now apply V2_fill_run.
  - unfold V2.oled_ioctl. rewrite Z.eqb_refl.
    erewrite bind_done by (apply (V2_clear_run _ c2 H2)). reflexivity.
  - unfold V2.oled_ioctl.
    replace (V2.OLED_FILL =? V2.OLED_CLEAR) with false by reflexivity.
    rewrite Z.eqb_refl.
    erewrite bind_done by (apply (V2_fill_run _ c2 H2)). reflexivity.
Qed.

Lemma display_operations_ignore_bus_status_witness :
  V1.etx_i2c_client_oled (glob (V1_bound failing_bus)) = Ptr V1.oled_i2c_board_info
  /\ V2.oled_client (glob (V2_bound failing_bus)) = Ptr V2.oled_info
  /\ (forall n, xfer_ret failing_bus n < 0)
  /\ V2.oled_ioctl V2.OLED_CLEAR 0 (V2_bound failing_bus)
     = Done 0 (World failing_bus (fill_events V2.oled_info 0x00)
                     (Z.to_nat (128 * 8) + 0) [V2.oled_info; V2.aht20_info]
                     (glob (V2_bound failing_bus))).
Proof.
  split; [reflexivity |]. split; [reflexivity |].
  split; [intros n; vm_compute; reflexivity |].
  destruct (display_operations_ignore_bus_status
              (V1_bound failing_bus) (V2_bound failing_bus)
              V1.oled_i2c_board_info V2.oled_info 0 eq_refl eq_refl)
    as (_ & _ & _ & _ & _ & _ & _ & _ & Hclear & _).
  exact Hclear.
Defined.

(** ** Sensor: initialisation, reading, decoding *)

Section SensorRuns.

Lemma V1_Init_run (w : world V1.globals) (c : i2c_client) :
  V1.etx_i2c_client_aht (glob w) = Ptr c ->
  V1.AHT20_Init w =
    Done (xfer_ret (kern w) (nxfer w))
      (World (kern w)
             (trace w ++
                [MasterSend c [0xBE; 0x08; 0x00];
                 if xfer_ret (kern w) (nxfer w) <? 0
                 then Printk KERN_ERR "AHT20: Initialization failed" []
                 else Printk KERN_INFO "AHT20: Initialized successfully" [];
                 Msleep 40])
             (S (nxfer w)) (devices w) (glob w)).
Proof.
  destruct w as [k t n ds [a o h s]]. simpl. intros ->.
  unfold V1.AHT20_Init, bind, get, i2c_master_send. cbn.
  destruct (xfer_ret k n <? 0); cbn; repeat rewrite <- app_assoc; reflexivity.
Qed.

(** A failed trigger send stops [AHT20_ReadData] there. *)
Lemma V1_ReadData_trigger_failure (w : world V1.globals) (c : i2c_client) :
  V1.etx_i2c_client_aht (glob w) = Ptr c ->
  xfer_ret (kern w) (nxfer w) < 0 ->
  V1.AHT20_ReadData w =
    Done (xfer_ret (kern w) (nxfer w), None)
      (World (kern w)
             (trace w ++
                [MasterSend c [0xAC; 0x33; 0x00];
                 Printk KERN_ERR "AHT20: Trigger measurement failed" []])
             (S (nxfer w)) (devices w) (glob w)).
Proof.
  destruct w as [k t n ds [a o h s]]. simpl. intros -> F.
  apply Z.ltb_lt in F.
  unfold V1.AHT20_ReadData, bind, get, i2c_master_send. cbn. rewrite F. cbn.
  repeat rewrite <- app_assoc. reflexivity.
Qed.

(** A failed 6-byte read stops [AHT20_ReadData] there. *)
Lemma V1_ReadData_recv_failure (w : world V1.globals) (c : i2c_client) :
  V1.etx_i2c_client_aht (glob w) = Ptr c ->
  0 <= xfer_ret (kern w) (nxfer w) ->
  xfer_ret (kern w) (S (nxfer w)) < 0 ->
  V1.AHT20_ReadData w =
    Done (xfer_ret (kern w) (S (nxfer w)), None)
      (World (kern w)
             (trace w ++
                [MasterSend c [0xAC; 0x33; 0x00]; Msleep 80; MasterRecv c 6;
                 Printk KERN_ERR "AHT20: Data read failed" []])
             (S (S (nxfer w))) (devices w) (glob w)).
Proof.
  destruct w as [k t n ds [a o h s]]. simpl. intros -> T F.
  apply Z.ltb_ge in T. apply Z.ltb_lt in F.
  unfold V1.AHT20_ReadData, bind, get, i2c_master_send, i2c_master_recv.
  cbn. rewrite T. cbn. rewrite F. cbn.
  repeat rewrite <- app_assoc. reflexivity.
Qed.

(** With both transfers successful the received bytes are decoded. *)
Lemma V1_ReadData_success (w : world V1.globals) (c : i2c_client) :
  V1.etx_i2c_client_aht (glob w) = Ptr c ->
  0 <= xfer_ret (kern w) (nxfer w) ->
  0 <= xfer_ret (kern w) (S (nxfer w)) ->
  let d := rx_data (kern w) (S (nxfer w)) in
  let t := Aht20.conv_temperature (Aht20.raw_temperature d) in
  let h := Aht20.conv_humidity (Aht20.raw_humidity d) in
  V1.AHT20_ReadData w =
    Done (0, Some (t, h))
      (World (kern w)
             (trace w ++
                [MasterSend c [0xAC; 0x33; 0x00]; Msleep 80; MasterRecv c 6;
                 Printk KERN_INFO "AHT20: Temp = %d.%d C, RH = %d.%d%%"
                        [Z.quot t 10; Z.rem t 10; Z.quot h 10; Z.rem h 10]])
             (S (S (nxfer w))) (devices w) (glob w)).
Proof.
  destruct w as [k t n ds [a o h s]]. simpl. intros -> T F.
  apply Z.ltb_ge in T, F.
  unfold V1.AHT20_ReadData, bind, get, i2c_master_send, i2c_master_recv.
  cbn -[Aht20.conv_temperature Aht20.conv_humidity
        Aht20.raw_temperature Aht20.raw_humidity Z.quot Z.rem].
  rewrite T.
  cbn -[Aht20.conv_temperature Aht20.conv_humidity
        Aht20.raw_temperature Aht20.raw_humidity Z.quot Z.rem].
  rewrite F.
  cbn -[Aht20.conv_temperature Aht20.conv_humidity
        Aht20.raw_temperature Aht20.raw_humidity Z.quot Z.rem].
  repeat rewrite <- app_assoc. reflexivity.
Qed.

(** [AHT20_ReadData] always returns when the sensor client is live, and
    touches nothing but the trace and the transfer count. *)
Lemma V1_ReadData_total (w : world V1.globals) (c : i2c_client) :
  V1.etx_i2c_client_aht (glob w) = Ptr c ->
  exists r w' t,
    V1.AHT20_ReadData w = Done r w'
    /\ kern w' = kern w /\ devices w' = devices w /\ glob w' = glob w
    /\ trace w' = trace w ++ t.
Proof.
  intros H.
  destruct (Z.lt_ge_cases (xfer_ret (kern w) (nxfer w)) 0) as [T | T].
  - rewrite (V1_ReadData_trigger_failure w c H T).
    do 3 eexists. repeat split; reflexivity.
  - destruct (Z.lt_ge_cases (xfer_ret (kern w) (S (nxfer w))) 0) as [F | F].
    + rewrite (V1_ReadData_recv_failure w c H T F).
      do 3 eexists. repeat split; reflexivity.
    + rewrite (V1_ReadData_success w c H T F).
      do 3 eexists. repeat split; reflexivity.
Qed.

(** The world in which [aht20_probe] of [i2c_driver.c] starts its
    diagnostic read: the client is stored, the probe is logged, the
    initialisation command is sent, its outcome logged, 40 ms waited. *)
Lemma V1_aht20_probe_run (w : world V1.globals) (c : i2c_client) :
  let w_init :=
    World (kern w)
          (trace w ++
             [Printk KERN_INFO "AHT20: Device probed successfully" [];
              MasterSend c [0xBE; 0x08; 0x00];
              if xfer_ret (kern w) (nxfer w) <? 0
              then Printk KERN_ERR "AHT20: Initialization failed" []
              else Printk KERN_INFO "AHT20: Initialized successfully" [];
              Msleep 40])
          (S (nxfer w)) (devices w)
          (V1.Globals (V1.etx_i2c_adapter (glob w))
                      (V1.etx_i2c_client_oled (glob w)) (Ptr c)
                      (V1.select_device (glob w))) in
  exists r w',
    V1.AHT20_ReadData w_init = Done r w'
    /\ V1.aht20_probe (Ptr c) w = Done 0 w'.
Proof.
  intros w_init.
  destruct (V1_ReadData_total w_init c eq_refl) as (r & w' & t & R & _).
  exists r, w'. split; [exact R |].
  unfold V1.aht20_probe.
  erewrite bind_done by reflexivity.
  erewrite bind_done by reflexivity.
  erewrite bind_done by (apply (V1_Init_run _ c); reflexivity).
  cbn [kern trace nxfer devices glob].
  replace (World _ _ _ _ _) with w_init.
  - erewrite bind_done by exact R. reflexivity.
  - unfold w_init. repeat rewrite <- app_assoc. reflexivity.
Qed.

Lemma V2_aht20_probe_run (w : world V2.globals) (c : i2c_client) :
  V2.aht20_probe (Ptr c) w =
    Done 0
      (World (kern w) (trace w ++ [Printk KERN_INFO "AHT20 sensor probed" []])
             (nxfer w) (devices w)
             (V2.Globals (V2.i2c_adap (glob w)) (V2.oled_client (glob w)) (Ptr c))).
Proof. reflexivity. Qed.

(** [aht20_ioctl] of [i2c_client_driver.c] on a ReadData request: the two
    transfer statuses are not looked at. *)
Lemma V2_aht20_ioctl_run (w : world V2.globals) (c : i2c_client) (arg : Z) :
  V2.aht20_client (glob w) = Ptr c ->
  let d := rx_data (kern w) (S (nxfer w)) in
  let data := {| temperature := Aht20.conv_temperature (Aht20.raw_temperature d);
                 humidity := Aht20.conv_humidity (Aht20.raw_humidity d) |} in
  let bus := [MasterSend c [0xAC; 0x33; 0x00]; Msleep 80; MasterRecv c 6] in
  V2.aht20_ioctl V2.AHT20_READ_DATA arg w =
    if user_writable (kern w) arg
    then Done 0 (World (kern w) (trace w ++ bus ++ [CopyToUser arg data])
                       (S (S (nxfer w))) (devices w) (glob w))
    else Done (- EFAULT) (World (kern w) (trace w ++ bus)
                                (S (S (nxfer w))) (devices w) (glob w)).
Proof.
  destruct w as [k t n ds [a o h]]. simpl. intros ->.
  unfold V2.aht20_ioctl. rewrite Z.eqb_refl.
  unfold V2.aht20_trigger, V2.aht20_read_raw, copy_to_user, bind, get, ret,
    msleep, emit, i2c_master_send, i2c_master_recv.
  cbn -[Aht20.conv_temperature Aht20.conv_humidity
        Aht20.raw_temperature Aht20.raw_humidity].
  destruct (user_writable k arg);
    cbn -[Aht20.conv_temperature Aht20.conv_humidity
          Aht20.raw_temperature Aht20.raw_humidity];
    repeat rewrite <- app_assoc; reflexivity.
Qed.

End SensorRuns.

(** C1: for every six received bytes, both drivers assemble
    raw_humidity = (b1 << 12) | (b2 << 4) | (b3 >> 4) and
    raw_temperature = ((b3 & 0x0F) << 16) | (b4 << 8) | b5, both 20-bit
    values, and deliver humidity = floor(raw_humidity * 1000 / 2^20) and
    temperature = floor(raw_temperature * 2000 / 2^20) - 500, the division
    (which truncates; floor and truncation agree here) taken before the
    subtraction; nothing but the six bytes enters the result. *)
Theorem decode_formula
        (b0 b1 b2 b3 b4 b5 arg : Z)
        (w1 : world V1.globals) (w2 : world V2.globals) (c1 c2 : i2c_client) :
  is_u8 b0 -> is_u8 b1 -> is_u8 b2 -> is_u8 b3 -> is_u8 b4 -> is_u8 b5 ->
  V1.etx_i2c_client_aht (glob w1) = Ptr c1 ->
  0 <= xfer_ret (kern w1) (nxfer w1) ->
  0 <= xfer_ret (kern w1) (S (nxfer w1)) ->
  rx_data (kern w1) (S (nxfer w1)) = [b0; b1; b2; b3; b4; b5] ->
  V2.aht20_client (glob w2) = Ptr c2 ->
  rx_data (kern w2) (S (nxfer w2)) = [b0; b1; b2; b3; b4; b5] ->
  user_writable (kern w2) arg = true ->
  let raw_humidity :=
    Z.lor (Z.lor (Z.shiftl b1 12) (Z.shiftl b2 4)) (Z.shiftr b3 4) in
  let raw_temperature :=
    Z.lor (Z.lor (Z.shiftl (Z.land b3 0x0F) 16) (Z.shiftl b4 8)) b5 in
  let hum := raw_humidity * 1000 / 2 ^ 20 in
  let temp := raw_temperature * 2000 / 2 ^ 20 - 500 in
  0 <= raw_humidity < 2 ^ 20
  /\ 0 <= raw_temperature < 2 ^ 20
  /\ Z.quot (raw_humidity * 1000) (2 ^ 20) = raw_humidity * 1000 / 2 ^ 20
  /\ Z.quot (raw_temperature * 2000) (2 ^ 20) = raw_temperature * 2000 / 2 ^ 20
  /\ (exists w', V1.AHT20_ReadData w1 = Done (0, Some (temp, hum)) w')
  /\ (exists w',
         V2.aht20_ioctl V2.AHT20_READ_DATA arg w2 = Done 0 w'
         /\ trace w' =
              trace w2 ++
                [MasterSend c2 [0xAC; 0x33; 0x00]; Msleep 80; MasterRecv c2 6;
                 CopyToUser arg {| temperature := temp; humidity := hum |}]).
Proof.
  intros B0 B1 B2 B3 B4 B5 H1 T1 R1 D1 H2 D2 U2.
  set (d := [b0; b1; b2; b3; b4; b5]) in *.
  destruct (raw_humidity_bits d B1 B2 B3) as [Eh Rh].
  destruct (raw_temperature_bits d B3 B4 B5) as [Et Rt].
  change (nth 1 d 0) with b1 in *. change (nth 2 d 0) with b2 in *.
  change (nth 3 d 0) with b3 in *. change (nth 4 d 0) with b4 in *.
  change (nth 5 d 0) with b5 in *.
  intros raw_humidity raw_temperature hum temp.
  fold raw_humidity in Eh. fold raw_temperature in Et.
  assert (Ch : Aht20.conv_humidity (Aht20.raw_humidity d) = hum).
  { rewrite conv_humidity_exact by exact Rh. unfold hum. now rewrite Eh. }
  assert (Ct : Aht20.conv_temperature (Aht20.raw_temperature d) = temp).
  { rewrite conv_temperature_exact by exact Rt. unfold temp. now rewrite Et. }
  rewrite Eh in Rh. rewrite Et in Rt.
  split; [exact Rh |]. split; [exact Rt |].
  split; [apply Z.quot_div_nonneg; [lia | reflexivity] |].
  split; [apply Z.quot_div_nonneg; [lia | reflexivity] |].
  split.
  - eexists. rewrite (V1_ReadData_success w1 c1 H1 T1 R1).
    rewrite D1, Ct, Ch. reflexivity.
  - eexists. rewrite (V2_aht20_ioctl_run w2 c2 arg H2).
    rewrite U2, D2, Ct, Ch. split; reflexivity.
Qed.

Lemma decode_formula_witness :
  (is_u8 0x00 /\ is_u8 0x19 /\ is_u8 0x99 /\ is_u8 0x9A /\ is_u8 0x66)
  /\ V1.etx_i2c_client_aht (glob (V1_bound good_kernel))
     = Ptr V1.aht20_i2c_board_info
  /\ 0 <= xfer_ret good_kernel 0
  /\ 0 <= xfer_ret good_kernel 1
  /\ rx_data good_kernel 1 = [0x00; 0x19; 0x99; 0x9A; 0x66; 0x66]
  /\ V2.aht20_client (glob (V2_bound good_kernel)) = Ptr V2.aht20_info
  /\ user_writable good_kernel 0x7000 = true
  /\ (exists w', V1.AHT20_ReadData (V1_bound good_kernel)
                 = Done (0, Some (799, 99)) w')
  /\ (exists w', V2.aht20_ioctl V2.AHT20_READ_DATA 0x7000 (V2_bound good_kernel)
                 = Done 0 w'
                 /\ trace w' =
                      [MasterSend V2.aht20_info [0xAC; 0x33; 0x00]; Msleep 80;
                       MasterRecv V2.aht20_info 6;
                       CopyToUser 0x7000 {| temperature := 799; humidity := 99 |}]).
Proof.
  assert (U : forall b, 0 <= b < 256 -> is_u8 b) by (intros b H; exact H).
  assert (U0 : is_u8 0x00) by (apply U; lia).
  assert (U1 : is_u8 0x19) by (apply U; lia).
  assert (U2 : is_u8 0x99) by (apply U; lia).
  assert (U3 : is_u8 0x9A) by (apply U; lia).
  assert (U4 : is_u8 0x66) by (apply U; lia).
  assert (P0 : 0 <= xfer_ret good_kernel 0) by (simpl; lia).
  assert (P1 : 0 <= xfer_ret good_kernel 1) by (simpl; lia).
  split; [exact (conj U0 (conj U1 (conj U2 (conj U3 U4)))) |].
  split; [reflexivity |]. split; [exact P0 |]. split; [exact P1 |].
  split; [reflexivity |]. split; [reflexivity |]. split; [reflexivity |].
  destruct (decode_formula
              0x00 0x19 0x99 0x9A 0x66 0x66 0x7000
              (V1_bound good_kernel) (V2_bound good_kernel)
              V1.aht20_i2c_board_info V2.aht20_info
              U0 U1 U2 U3 U4 U4 eq_refl P0 P1 eq_refl eq_refl eq_refl eq_refl)
    as (_ & _ & _ & _ & R1 & R2).
  split; [exact R1 | exact R2].
Defined.

(** C4: on a bus whose every transfer fails with [-EIO], the ReadData
    request of [i2c_client_driver.c] still runs trigger, wait, read and
    decode to the end, copies a reading (decoded from what the untouched
    buffer held) to the caller and returns 0; [AHT20_ReadData] of
    [i2c_driver.c] stops at the failed trigger, returns [-EIO] and
    delivers nothing. *)
Theorem V2_read_data_ignores_transfer_failure :
  (forall n, xfer_ret failing_bus n = - EIO)
  /\ V2.aht20_ioctl V2.AHT20_READ_DATA 0x7000 (V2_bound failing_bus)
     = Done 0
         (World failing_bus
                [MasterSend V2.aht20_info [0xAC; 0x33; 0x00]; Msleep 80;
                 MasterRecv V2.aht20_info 6;
                 CopyToUser 0x7000 {| temperature := 1383; humidity := 678 |}]
                2 [V2.oled_info; V2.aht20_info]
                (V2.Globals true (Ptr V2.oled_info) (Ptr V2.aht20_info)))
  /\ V1.AHT20_ReadData (V1_bound failing_bus)
     = Done (- EIO, None)
         (World failing_bus
                [MasterSend V1.aht20_i2c_board_info [0xAC; 0x33; 0x00];
                 Printk KERN_ERR "AHT20: Trigger measurement failed" []]
                1 [V1.oled_i2c_board_info; V1.aht20_i2c_board_info]
                (glob (V1_bound failing_bus))).
Proof.
  split; [intros n; reflexivity |]. split; vm_compute; reflexivity.
Qed.

(** C6, as the code has it: the display probe emits a fixed command
    sequence that depends on nothing.  In [i2c_driver.c] it is the 26
    bytes of [V1_init_cmds] after a 100 ms wait, followed by a full fill
    with 0xFF; in [i2c_client_driver.c] it is the 4 bytes of
    [V2_init_cmds] after a 100 ms wait, and no fill follows. *)
Theorem display_on_bind_sequence
        (w1 : world V1.globals) (w2 : world V2.globals) (c : i2c_client) :
  V1.etx_oled_probe (Ptr c) w1 =
    Done 0
      (World (kern w1)
             (trace w1
                ++ Printk KERN_INFO "ETX_OLED: Device probed successfully" []
                :: Msleep 100
                :: map (cmd_write c) V1_init_cmds ++ fill_events c 0xFF)
             (Z.to_nat (128 * 8) + (26 + nxfer w1)) (devices w1)
             (V1.Globals (V1.etx_i2c_adapter (glob w1)) (Ptr c)
                         (V1.etx_i2c_client_aht (glob w1))
                         (V1.select_device (glob w1))))
  /\ V2.oled_probe (Ptr c) w2 =
       Done 0
         (World (kern w2)
                (trace w2
                   ++ Msleep 100
                   :: map (cmd_write c) V2_init_cmds
                   ++ [Printk KERN_INFO "SSD1306 OLED probed" []])
                (4 + nxfer w2) (devices w2)
                (V2.Globals (V2.i2c_adap (glob w2)) (Ptr c)
                            (V2.aht20_client (glob w2))))
  /\ Z.of_nat (List.length V1_init_cmds) = 26
  /\ Z.of_nat (List.length V2_init_cmds) = 4.
Proof.
  split; [apply V1_oled_probe_run |].
  split; [apply V2_oled_probe_run |].
  split; reflexivity.
Qed.

(** C6 fails on [i2c_client_driver.c]: its display probe sends four command
    bytes (no clock divider, charge pump, remap, scan direction or contrast
    command among them) and not a single data write, so no fill. *)
Lemma V2_display_on_bind_has_no_fill :
  exists w',
    V2.oled_probe (Ptr V2.oled_info) (V2.at_load good_kernel) = Done 0 w'
    /\ trace w' =
         [Msleep 100;
          MasterSend V2.oled_info [0x00; 0xAE];
          MasterSend V2.oled_info [0x00; 0xA8];
          MasterSend V2.oled_info [0x00; 0x3F];
          MasterSend V2.oled_info [0x00; 0xAF];
          Printk KERN_INFO "SSD1306 OLED probed" []]
    /\ ~ In (MasterSend V2.oled_info [0x40; 0xFF]) (trace w').
Proof.
  eexists. split; [reflexivity |]. split; [reflexivity |].
  cbn. intros H. repeat (destruct H as [H | H]; [discriminate H |]). exact H.
Qed.

(** C8, as the code has it: the sensor probe of [i2c_driver.c] stores the
    client, sends BE 08 00, logs the failure when the send failed, waits
    40 ms, makes one diagnostic read and returns 0 whatever the send and the
    read returned; the sensor probe of [i2c_client_driver.c] stores the
    client, logs, and returns 0 without any bus transfer or wait. *)
Theorem sensor_on_bind
        (w1 : world V1.globals) (w2 : world V2.globals) (c : i2c_client) :
  (let w_init :=
     World (kern w1)
           (trace w1 ++
              [Printk KERN_INFO "AHT20: Device probed successfully" [];
               MasterSend c [0xBE; 0x08; 0x00];
               if xfer_ret (kern w1) (nxfer w1) <? 0
               then Printk KERN_ERR "AHT20: Initialization failed" []
               else Printk KERN_INFO "AHT20: Initialized successfully" [];
               Msleep 40])
           (S (nxfer w1)) (devices w1)
           (V1.Globals (V1.etx_i2c_adapter (glob w1))
                       (V1.etx_i2c_client_oled (glob w1)) (Ptr c)
                       (V1.select_device (glob w1))) in
   exists r w',
     V1.AHT20_ReadData w_init = Done r w'
     /\ V1.aht20_probe (Ptr c) w1 = Done 0 w')
  /\ V2.aht20_probe (Ptr c) w2 =
       Done 0
         (World (kern w2)
                (trace w2 ++ [Printk KERN_INFO "AHT20 sensor probed" []])
                (nxfer w2) (devices w2)
                (V2.Globals (V2.i2c_adap (glob w2)) (V2.oled_client (glob w2))
                            (Ptr c))).
Proof.
  split; [apply V1_aht20_probe_run | apply V2_aht20_probe_run].
Qed.

(** C8 fails on [i2c_client_driver.c]: its sensor probe sends nothing. *)
Lemma V2_sensor_on_bind_sends_nothing :
  V2.aht20_probe (Ptr V2.aht20_info) (V2.at_load good_kernel)
  = Done 0
      (World good_kernel [Printk KERN_INFO "AHT20 sensor probed" []] 0 []
             (V2.Globals false NULL (Ptr V2.aht20_info)))
  /\ forall w',
       V2.aht20_probe (Ptr V2.aht20_info) (V2.at_load good_kernel) = Done 0 w' ->
       ~ In (MasterSend V2.aht20_info [0xBE; 0x08; 0x00]) (trace w')
       /\ ~ In (Msleep 40) (trace w').
Proof.
  split; [reflexivity |].
  intros w' H. injection H as <-. cbn.
  split; intros [E | []]; discriminate E.
Qed.

(** ** Start-up registration *)

Section Registration.

(** [aht20_probe] of [i2c_driver.c] always returns 0; it stores the client
    and extends the trace, beginning with its probe message. *)
Lemma V1_aht20_probe_total (w : world V1.globals) (c : i2c_client) :
  exists w' t,
    V1.aht20_probe (Ptr c) w = Done 0 w'
    /\ kern w' = kern w /\ devices w' = devices w
    /\ glob w' = V1.Globals (V1.etx_i2c_adapter (glob w))
                            (V1.etx_i2c_client_oled (glob w)) (Ptr c)
                            (V1.select_device (glob w))
    /\ trace w' =
         trace w ++
           Printk KERN_INFO "AHT20: Device probed successfully" [] :: t.
Proof.
  unfold V1.aht20_probe.
  erewrite bind_done by reflexivity.
  erewrite bind_done by reflexivity.
  erewrite bind_done by (apply (V1_Init_run _ c); reflexivity).
  cbn [kern trace nxfer devices glob].
  match goal with
  | |- context [bind V1.AHT20_ReadData _ ?w0] =>
      destruct (V1_ReadData_total w0 c eq_refl) as (r & w' & t & R & K & D & Gl & T);
      rewrite (bind_done _ _ _ _ _ R)
  end.
  exists w'. eexists. split; [reflexivity |].
  cbn [kern trace nxfer devices glob] in K, D, Gl, T.
  split; [exact K |]. split; [exact D |]. split; [exact Gl |].
  rewrite T. repeat rewrite <- app_assoc. reflexivity.
Qed.

Lemma new_device_ok {G} (info : i2c_board_info) (w : world G) :
  new_device_errno (kern w) info = 0 ->
  i2c_new_client_device info w =
    Done (Ptr info)
         (World (kern w) (trace w ++ [NewClientDevice info]) (nxfer w)
                (devices w ++ [info]) (glob w)).
Proof. intros E. unfold i2c_new_client_device. now rewrite E. Qed.

Lemma new_device_failed {G} (info : i2c_board_info) (w : world G) :
  new_device_errno (kern w) info <> 0 ->
  i2c_new_client_device info w =
    Done (ERR_PTR (new_device_errno (kern w) info))
         (World (kern w) (trace w ++ [NewClientDevice info]) (nxfer w)
                (devices w) (glob w)).
Proof.
  intros E. unfold i2c_new_client_device. apply Z.eqb_neq in E. now rewrite E.
Qed.

Lemma V1_init_oled_ok (w : world V1.globals) (sel : Z) :
  sel = 0 \/ sel = 1 ->
  devices w = [] ->
  new_device_errno (kern w) V1.oled_i2c_board_info = 0 ->
  V1.init_oled_if_selected sel w =
    Done tt
      (World (kern w)
             (trace w
                ++ NewClientDevice V1.oled_i2c_board_info
                :: AddDriver V1.SLAVE_DEVICE_NAME
                :: Printk KERN_INFO "ETX_OLED: Device probed successfully" []
                :: Msleep 100
                :: map (cmd_write V1.oled_i2c_board_info) V1_init_cmds
                ++ fill_events V1.oled_i2c_board_info 0xFF
                ++ [Printk KERN_INFO "ETX_OLED: Driver added" []])
             (Z.to_nat (128 * 8) + (26 + nxfer w)) [V1.oled_i2c_board_info]
             (V1.Globals (V1.etx_i2c_adapter (glob w)) (Ptr V1.oled_i2c_board_info)
                         (V1.etx_i2c_client_aht (glob w))
                         (V1.select_device (glob w)))).
Proof.
  intros S D E. unfold V1.init_oled_if_selected.
  replace ((sel =? 0) || (sel =? 1)) with true by (destruct S; subst; reflexivity).
  rewrite (bind_done _ _ _ _ _ (new_device_ok _ w E)).
  cbn [IS_ERR]. rewrite D.
  erewrite bind_done by reflexivity.
  unfold i2c_add_driver.
  erewrite bind_done.
  2:{ erewrite bind_done by reflexivity. cbn [devices app probe_matching].
      change (String.eqb (dev_name V1.oled_i2c_board_info) (id_table V1.etx_oled_driver)) with true.
      cbv iota. cbn [probe V1.etx_oled_driver].
      erewrite bind_done.
      2:{ erewrite bind_done by apply V1_oled_probe_run. reflexivity. }
      reflexivity. }
  unfold pr_info, printk, emit. cbn [kern trace nxfer devices glob V1.etx_i2c_adapter V1.etx_i2c_client_aht V1.select_device].
  repeat rewrite <- app_assoc. reflexivity.
Qed.

Lemma V1_init_oled_failed (w : world V1.globals) (sel : Z) :
  sel = 0 \/ sel = 1 ->
  new_device_errno (kern w) V1.oled_i2c_board_info <> 0 ->
  V1.init_oled_if_selected sel w =
    Done tt
      (World (kern w)
             (trace w ++
                [NewClientDevice V1.oled_i2c_board_info;
                 Printk KERN_ERR "ETX_OLED: Failed to register OLED device" []])
             (nxfer w) (devices w) (glob w)).
Proof.
  intros S E. unfold V1.init_oled_if_selected.
  replace ((sel =? 0) || (sel =? 1)) with true by (destruct S; subst; reflexivity).
  rewrite (bind_done _ _ _ _ _ (new_device_failed _ w E)).
  cbn [IS_ERR]. unfold pr_err, printk, emit. cbn [kern trace nxfer devices glob].
  repeat rewrite <- app_assoc. reflexivity.
Qed.

Lemma V1_init_aht20_ok (w : world V1.globals) (sel : Z) :
  sel = 0 \/ sel = 2 ->
  devices w = [] \/ devices w = [V1.oled_i2c_board_info] ->
  new_device_errno (kern w) V1.aht20_i2c_board_info = 0 ->
  exists w' t,
    V1.init_aht20_if_selected sel w = Done tt w'
    /\ kern w' = kern w
    /\ glob w' = V1.Globals (V1.etx_i2c_adapter (glob w))
                            (V1.etx_i2c_client_oled (glob w))
                            (Ptr V1.aht20_i2c_board_info)
                            (V1.select_device (glob w))
    /\ trace w' =
         trace w
           ++ NewClientDevice V1.aht20_i2c_board_info
           :: AddDriver V1.AHT20_DEVICE_NAME
           :: Printk KERN_INFO "AHT20: Device probed successfully" []
           :: t.
Proof.
  intros S D E. unfold V1.init_aht20_if_selected.
  replace ((sel =? 0) || (sel =? 2)) with true by (destruct S; subst; reflexivity).
  rewrite (bind_done _ _ _ _ _ (new_device_ok _ w E)).
  cbn [IS_ERR].
  erewrite bind_done by reflexivity.
  unfold i2c_add_driver.
  match goal with
  | |- context [bind (bind (emit ?e) _) _ ?w0] =>
      destruct (V1_aht20_probe_total
                  (World (kern w0) (trace w0 ++ [e]) (nxfer w0) (devices w0) (glob w0))
                  V1.aht20_i2c_board_info)
        as (w' & t & R & K & _ & Gl & T)
  end.
  cbn [kern trace nxfer devices glob] in R, K, Gl, T.
  erewrite bind_done.
  2:{ erewrite bind_done by reflexivity. cbn [kern trace nxfer devices glob].
      destruct D as [D | D]; rewrite D in R |- *; cbn [app probe_matching] in R |- *.
      - change (String.eqb (dev_name V1.aht20_i2c_board_info)
                           (id_table V1.aht20_driver)) with true.
        cbv iota. cbn [probe V1.aht20_driver].
        erewrite bind_done.
        2:{ erewrite bind_done by exact R. reflexivity. }
        reflexivity.
      - change (String.eqb (dev_name V1.oled_i2c_board_info)
                           (id_table V1.aht20_driver)) with false.
        change (String.eqb (dev_name V1.aht20_i2c_board_info)
                           (id_table V1.aht20_driver)) with true.
        cbv iota. cbn [probe V1.aht20_driver].
        erewrite bind_done by reflexivity.
        erewrite bind_done.
        2:{ erewrite bind_done by exact R. reflexivity. }
        reflexivity. }
  eexists. eexists. split; [reflexivity |].
  cbn [kern trace nxfer devices glob].
  split; [exact K |]. split; [exact Gl |].
  rewrite T. repeat rewrite <- app_assoc. reflexivity.
Qed.

Lemma V1_init_aht20_failed (w : world V1.globals) (sel : Z) :
  sel = 0 \/ sel = 2 ->
  new_device_errno (kern w) V1.aht20_i2c_board_info <> 0 ->
  V1.init_aht20_if_selected sel w =
    Done tt
      (World (kern w)
             (trace w ++
                [NewClientDevice V1.aht20_i2c_board_info;
                 Printk KERN_ERR "AHT20: Failed to register AHT20 device" []])
             (nxfer w) (devices w) (glob w)).
Proof.
  intros S E. unfold V1.init_aht20_if_selected.
  replace ((sel =? 0) || (sel =? 2)) with true by (destruct S; subst; reflexivity).
  rewrite (bind_done _ _ _ _ _ (new_device_failed _ w E)).
  cbn [IS_ERR]. unfold pr_err, printk, emit. cbn [kern trace nxfer devices glob].
  repeat rewrite <- app_assoc. reflexivity.
Qed.

Lemma In_app_head {A} (x : A) (l r : list A) : In x l -> In x (l ++ r).
Proof. intros H. apply in_or_app. now left. Qed.

(** Start-up of [i2c_driver.c] with both devices selected. *)
Lemma V1_init_both_selected (k : kernel) :
  adapter_at k 1 = true ->
  exists w',
    V1.etx_driver_init (V1.at_load k 0) = Done 0 w'
    /\ (new_device_errno k V1.aht20_i2c_board_info = 0 ->
        V1.etx_i2c_client_aht (glob w') = Ptr V1.aht20_i2c_board_info
        /\ In (AddDriver V1.AHT20_DEVICE_NAME) (trace w')
        /\ In (Printk KERN_INFO "AHT20: Device probed successfully" []) (trace w'))
    /\ (new_device_errno k V1.oled_i2c_board_info = 0 ->
        V1.etx_i2c_client_oled (glob w') = Ptr V1.oled_i2c_board_info
        /\ In (AddDriver V1.SLAVE_DEVICE_NAME) (trace w')
        /\ In (Printk KERN_INFO "ETX_OLED: Device probed successfully" []) (trace w')).
Proof.
  intros A. unfold V1.etx_driver_init, V1.at_load.
  erewrite bind_done by reflexivity. cbv beta zeta. cbn [glob V1.select_device].
  erewrite bind_done by reflexivity.
  erewrite bind_done by reflexivity.
  erewrite bind_done by reflexivity.
  erewrite bind_done by reflexivity.
  cbn [kern trace nxfer devices glob app]. unfold V1.I2C_BUS_AVAILABLE. rewrite A.
  cbn [negb V1.etx_i2c_adapter V1.etx_i2c_client_oled V1.etx_i2c_client_aht
       V1.select_device].
  match goal with
  | |- context [bind (V1.init_oled_if_selected 0) _ ?w] => set (w0 := w)
  end.
  destruct (Z.eq_dec (new_device_errno k V1.oled_i2c_board_info) 0) as [EO | EO].
  - rewrite (bind_done _ _ _ _ _ (V1_init_oled_ok w0 0 (or_introl eq_refl) eq_refl EO)).
    match goal with
    | |- context [bind (V1.init_aht20_if_selected 0) _ ?w] => set (w1 := w)
    end.
    assert (O1 : In (AddDriver V1.SLAVE_DEVICE_NAME) (trace w1)
                 /\ In (Printk KERN_INFO "ETX_OLED: Device probed successfully" [])
                       (trace w1)).
    { unfold w1. cbn [trace]. split; apply in_or_app; right.
      - right; left; reflexivity.
      - right; right; left; reflexivity. }
    destruct O1 as [O1 O2].
    destruct (Z.eq_dec (new_device_errno k V1.aht20_i2c_board_info) 0) as [EA | EA].
    + destruct (V1_init_aht20_ok w1 0 (or_introl eq_refl) (or_intror eq_refl) EA)
        as (w2 & t & R & K & Gl & T).
      rewrite (bind_done _ _ _ _ _ R).
      erewrite bind_done by reflexivity.
      erewrite bind_done by reflexivity.
      eexists. split; [reflexivity |].
      cbn [kern trace nxfer devices glob]. rewrite Gl, T.
      split; intros _.
      * split; [reflexivity |].
        split; do 2 apply In_app_head; apply in_or_app; right.
        -- right; left; reflexivity.
        -- right; right; left; reflexivity.
      * split; [reflexivity |].
        split; do 3 apply In_app_head; assumption.
    + rewrite (bind_done _ _ _ _ _
                 (V1_init_aht20_failed w1 0 (or_introl eq_refl) EA)).
      erewrite bind_done by reflexivity.
      erewrite bind_done by reflexivity.
      eexists. split; [reflexivity |].
      cbn [kern trace nxfer devices glob].
      split; [intros E0; contradiction |]. intros _.
      split; [reflexivity |].
      split; do 3 apply In_app_head; assumption.
  - rewrite (bind_done _ _ _ _ _
               (V1_init_oled_failed w0 0 (or_introl eq_refl) EO)).
    match goal with
    | |- context [bind (V1.init_aht20_if_selected 0) _ ?w] => set (w1 := w)
    end.
    destruct (Z.eq_dec (new_device_errno k V1.aht20_i2c_board_info) 0) as [EA | EA].
    + destruct (V1_init_aht20_ok w1 0 (or_introl eq_refl) (or_introl eq_refl) EA)
        as (w2 & t & R & K & Gl & T).
      rewrite (bind_done _ _ _ _ _ R).
      erewrite bind_done by reflexivity.
      erewrite bind_done by reflexivity.
      eexists. split; [reflexivity |].
      cbn [kern trace nxfer devices glob]. rewrite Gl, T.
      split; [intros _ | intros E0; contradiction].
      split; [reflexivity |].
      split; do 2 apply In_app_head; apply in_or_app; right.
      * right; left; reflexivity.
      * right; right; left; reflexivity.
    + rewrite (bind_done _ _ _ _ _
                 (V1_init_aht20_failed w1 0 (or_introl eq_refl) EA)).
      erewrite bind_done by reflexivity.
      erewrite bind_done by reflexivity.
      eexists. split; [reflexivity |].
      split; intros E0; contradiction.
Qed.

(** Start-up of [i2c_client_driver.c] stops at the first client device that
    cannot be created and returns its error. *)
Lemma V2_init_oled_failed (k : kernel) :
  adapter_at k 1 = true ->
  new_device_errno k V2.oled_info <> 0 ->
  V2.etx_init (V2.at_load k) =
    Done (new_device_errno k V2.oled_info)
      (World k [GetAdapter 1; NewClientDevice V2.oled_info] 0 []
             (V2.Globals true (ERR_PTR (new_device_errno k V2.oled_info)) NULL)).
Proof.
  intros A E. unfold V2.etx_init, V2.at_load.
  erewrite bind_done by reflexivity.
  erewrite bind_done by reflexivity.
  cbn [kern trace nxfer devices glob app]. unfold V2.I2C_BUS_AVAILABLE. rewrite A.
  cbn [negb V2.i2c_adap V2.oled_client V2.aht20_client].
  erewrite bind_done by (apply new_device_failed; exact E).
  erewrite bind_done by reflexivity.
  reflexivity.
Qed.

Lemma V2_init_aht20_failed (k : kernel) :
  adapter_at k 1 = true ->
  new_device_errno k V2.oled_info = 0 ->
  new_device_errno k V2.aht20_info <> 0 ->
  V2.etx_init (V2.at_load k) =
    Done (new_device_errno k V2.aht20_info)
      (World k [GetAdapter 1; NewClientDevice V2.oled_info;
                NewClientDevice V2.aht20_info] 0 [V2.oled_info]
             (V2.Globals true (Ptr V2.oled_info)
                         (ERR_PTR (new_device_errno k V2.aht20_info)))).
Proof.
  intros A EO EA. unfold V2.etx_init, V2.at_load.
  erewrite bind_done by reflexivity.
  erewrite bind_done by reflexivity.
  cbn [kern trace nxfer devices glob app]. unfold V2.I2C_BUS_AVAILABLE. rewrite A.
  cbn [negb V2.i2c_adap V2.oled_client V2.aht20_client].
  erewrite bind_done by (apply new_device_ok; exact EO).
  erewrite bind_done by reflexivity.
  cbn [IS_ERR].
  erewrite bind_done by (apply new_device_failed; exact EA).
  erewrite bind_done by reflexivity.
  reflexivity.
Qed.

End Registration.

(** C5, as the code has it.  In [i2c_driver.c], loaded with both devices
    selected, start-up returns 0 whatever the two client-device creations
    return, and each device whose creation succeeded is registered and
    probed, the other one's failure notwithstanding.  In
    [i2c_client_driver.c] the first client device that cannot be created
    ends start-up with its error: no driver is registered, and after a
    display failure the sensor client is not even created. *)
Theorem registration_failure_handling (k : kernel) :
  adapter_at k 1 = true ->
  (exists w',
      V1.etx_driver_init (V1.at_load k 0) = Done 0 w'
      /\ (new_device_errno k V1.aht20_i2c_board_info = 0 ->
          V1.etx_i2c_client_aht (glob w') = Ptr V1.aht20_i2c_board_info
          /\ In (AddDriver V1.AHT20_DEVICE_NAME) (trace w')
          /\ In (Printk KERN_INFO "AHT20: Device probed successfully" [])
                (trace w'))
      /\ (new_device_errno k V1.oled_i2c_board_info = 0 ->
          V1.etx_i2c_client_oled (glob w') = Ptr V1.oled_i2c_board_info
          /\ In (AddDriver V1.SLAVE_DEVICE_NAME) (trace w')
          /\ In (Printk KERN_INFO "ETX_OLED: Device probed successfully" [])
                (trace w')))
  /\ (new_device_errno k V2.oled_info <> 0 ->
      V2.etx_init (V2.at_load k) =
        Done (new_device_errno k V2.oled_info)
          (World k [GetAdapter 1; NewClientDevice V2.oled_info] 0 []
                 (V2.Globals true (ERR_PTR (new_device_errno k V2.oled_info))
                             NULL)))
  /\ (new_device_errno k V2.oled_info = 0 ->
      new_device_errno k V2.aht20_info <> 0 ->
      V2.etx_init (V2.at_load k) =
        Done (new_device_errno k V2.aht20_info)
          (World k [GetAdapter 1; NewClientDevice V2.oled_info;
                    NewClientDevice V2.aht20_info] 0 [V2.oled_info]
                 (V2.Globals true (Ptr V2.oled_info)
                             (ERR_PTR (new_device_errno k V2.aht20_info))))).
Proof.
  intros A. split; [apply V1_init_both_selected; exact A |].
  split.
  - intros E. apply V2_init_oled_failed; assumption.
  - intros EO EA. apply V2_init_aht20_failed; assumption.
Qed.

Lemma registration_failure_handling_witness :
  adapter_at (busy_at 0x3C) 1 = true
  /\ new_device_errno (busy_at 0x3C) V1.oled_i2c_board_info = - EBUSY
  /\ (exists w',
         V1.etx_driver_init (V1.at_load (busy_at 0x3C) 0) = Done 0 w'
         /\ V1.etx_i2c_client_aht (glob w') = Ptr V1.aht20_i2c_board_info
         /\ In (AddDriver V1.AHT20_DEVICE_NAME) (trace w')
         /\ In (Printk KERN_INFO "AHT20: Device probed successfully" [])
               (trace w')).
Proof.
  split; [reflexivity |]. split; [reflexivity |].
  destruct (registration_failure_handling (busy_at 0x3C) eq_refl)
    as [(w' & R & Haht & _) _].
  exists w'. split; [exact R |]. exact (Haht eq_refl).
Defined.

(** C5 fails on [i2c_client_driver.c]: when the display client cannot be
    created although the sensor client could, start-up returns [-EBUSY]
    with the sensor never created and no driver registered; when the
    sensor client cannot be created, start-up returns [-EBUSY] with the
    display driver never registered. *)
Lemma V2_startup_stops_at_first_failure :
  new_device_errno (busy_at 0x3C) V2.aht20_info = 0
  /\ V2.etx_init (V2.at_load (busy_at 0x3C)) =
       Done (- EBUSY)
         (World (busy_at 0x3C) [GetAdapter 1; NewClientDevice V2.oled_info] 0 []
                (V2.Globals true (ERR_PTR (- EBUSY)) NULL))
  /\ new_device_errno (busy_at 0x38) V2.oled_info = 0
  /\ V2.etx_init (V2.at_load (busy_at 0x38)) =
       Done (- EBUSY)
         (World (busy_at 0x38)
                [GetAdapter 1; NewClientDevice V2.oled_info;
                 NewClientDevice V2.aht20_info] 0 [V2.oled_info]
                (V2.Globals true (Ptr V2.oled_info) (ERR_PTR (- EBUSY)))).
Proof.
  split; [reflexivity |]. split; [reflexivity |].
  split; reflexivity.
Qed.

(** * Further properties of the code *)

(** ** Raw fields and conversions *)

Section BitFields.

(** Or-ing a value below [2^k] into a value shifted left by [k] adds it. *)
Lemma shiftl_lor_add (x y k : Z) :
  0 <= k -> 0 <= y < 2 ^ k -> Z.lor (Z.shiftl x k) y = x * 2 ^ k + y.
Proof.
  intros Hk Hy.
  assert (L : Z.land (Z.shiftl x k) y = 0).
  { apply Z.bits_inj'. intros n Hn. rewrite Z.land_spec, Z.bits_0.
    destruct (Z.lt_ge_cases n k) as [Lt | Ge].
    - rewrite Z.shiftl_spec_low by exact Lt. reflexivity.
    - destruct (Z.eq_dec y 0) as [-> | Ny].
      + rewrite Z.bits_0. apply andb_false_r.
      + rewrite (Z.bits_above_log2 y n); [apply andb_false_r | lia |].
        apply Z.lt_le_trans with k; [| exact Ge].
        apply Z.log2_lt_pow2; lia. }
  rewrite <- Z.lxor_lor by exact L.
  rewrite <- Z.add_nocarry_lxor by exact L.
  now rewrite Z.shiftl_mul_pow2.
Qed.

Lemma raw_humidity_sum (d : list Z) :
  is_u8 (nth 1 d 0) -> is_u8 (nth 2 d 0) -> is_u8 (nth 3 d 0) ->
  Aht20.raw_humidity d = nth 1 d 0 * 4096 + nth 2 d 0 * 16 + nth 3 d 0 / 16.
Proof.
  intros H1 H2 H3. destruct (raw_humidity_bits d H1 H2 H3) as [E _].
  rewrite E. unfold is_u8 in *.
  set (b1 := nth 1 d 0) in *. set (b2 := nth 2 d 0) in *.
  set (b3 := nth 3 d 0) in *.
  rewrite Z.shiftr_div_pow2 by lia. change (2 ^ 4) with 16.
  rewrite (Z.shiftl_mul_pow2 b2) by lia. change (2 ^ 4) with 16.
  rewrite (shiftl_lor_add b1 (b2 * 16) 12) by (change (2 ^ 12) with 4096; lia).
  change (2 ^ 12) with 4096.
  replace (b1 * 4096 + b2 * 16) with (Z.shiftl (b1 * 256 + b2) 4)
    by (rewrite Z.shiftl_mul_pow2 by lia; change (2 ^ 4) with 16; lia).
  rewrite shiftl_lor_add;
    [now rewrite Z.shiftl_mul_pow2 by lia | lia |
     change (2 ^ 4) with 16; Z.div_mod_to_equations; lia].
Qed.

Lemma raw_temperature_sum (d : list Z) :
  is_u8 (nth 3 d 0) -> is_u8 (nth 4 d 0) -> is_u8 (nth 5 d 0) ->
  Aht20.raw_temperature d =
    (nth 3 d 0 mod 16) * 65536 + nth 4 d 0 * 256 + nth 5 d 0.
Proof.
  intros H3 H4 H5. destruct (raw_temperature_bits d H3 H4 H5) as [E _].
  rewrite E. unfold is_u8 in *.
  set (b3 := nth 3 d 0) in *. set (b4 := nth 4 d 0) in *.
  set (b5 := nth 5 d 0) in *.
  change 15 with (Z.ones 4). rewrite Z.land_ones by lia. change (2 ^ 4) with 16.
  assert (0 <= b3 mod 16 < 16) by (apply Z.mod_pos_bound; lia).
  rewrite (Z.shiftl_mul_pow2 b4) by lia. change (2 ^ 8) with 256.
  rewrite (shiftl_lor_add (b3 mod 16) (b4 * 256) 16)
    by (change (2 ^ 16) with 65536; lia).
  change (2 ^ 16) with 65536.
  replace (b3 mod 16 * 65536 + b4 * 256)
    with (Z.shiftl (b3 mod 16 * 256 + b4) 8)
    by (rewrite Z.shiftl_mul_pow2 by lia; change (2 ^ 8) with 256; lia).
  rewrite shiftl_lor_add;
    [now rewrite Z.shiftl_mul_pow2 by lia | lia | exact H5].
Qed.

End BitFields.

(** X1: the two raw fields split the 40 bits of bytes 1 to 5 between
    them, humidity the upper 20 and temperature the lower 20, so the five
    bytes are recovered from the fields; byte 0 takes no part. *)
Theorem raw_fields_partition_bytes (b0 b1 b2 b3 b4 b5 : Z) :
  is_u8 b1 -> is_u8 b2 -> is_u8 b3 -> is_u8 b4 -> is_u8 b5 ->
  let d := [b0; b1; b2; b3; b4; b5] in
  let rh := Aht20.raw_humidity d in
  let rt := Aht20.raw_temperature d in
  rh * 2 ^ 20 + rt = b1 * 2 ^ 32 + b2 * 2 ^ 24 + b3 * 2 ^ 16 + b4 * 2 ^ 8 + b5
  /\ b1 = rh / 2 ^ 12
  /\ b2 = (rh / 2 ^ 4) mod 2 ^ 8
  /\ b3 = (rh mod 2 ^ 4) * 2 ^ 4 + rt / 2 ^ 16
  /\ b4 = (rt / 2 ^ 8) mod 2 ^ 8
  /\ b5 = rt mod 2 ^ 8.
Proof.
  intros H1 H2 H3 H4 H5 d rh rt.
  assert (Eh : rh = b1 * 4096 + b2 * 16 + b3 / 16)
    by (apply (raw_humidity_sum d); assumption).
  assert (Et : rt = (b3 mod 16) * 65536 + b4 * 256 + b5)
    by (apply (raw_temperature_sum d); assumption).
  unfold is_u8 in *. clearbody rh rt. clear d.
  change (2 ^ 32) with 4294967296. change (2 ^ 24) with 16777216.
  change (2 ^ 20) with 1048576. change (2 ^ 16) with 65536.
  change (2 ^ 12) with 4096. change (2 ^ 8) with 256. change (2 ^ 4) with 16.
  subst rh rt.
  repeat split; Z.div_mod_to_equations; lia.
Qed.

Lemma raw_fields_partition_bytes_witness :
  (is_u8 0x19 /\ is_u8 0x99 /\ is_u8 0x9A /\ is_u8 0x66)
  /\ Aht20.raw_humidity [0x00; 0x19; 0x99; 0x9A; 0x66; 0x66] * 2 ^ 20
     + Aht20.raw_temperature [0x00; 0x19; 0x99; 0x9A; 0x66; 0x66]
     = 0x19999A6666.
Proof.
  assert (U : forall b, 0 <= b < 256 -> is_u8 b) by (intros b H; exact H).
  assert (U1 : is_u8 0x19) by (apply U; lia).
  assert (U2 : is_u8 0x99) by (apply U; lia).
  assert (U3 : is_u8 0x9A) by (apply U; lia).
  assert (U4 : is_u8 0x66) by (apply U; lia).
  split; [exact (conj U1 (conj U2 (conj U3 U4))) |].
  exact (proj1 (raw_fields_partition_bytes 0x00 0x19 0x99 0x9A 0x66 0x66
                  U1 U2 U3 U4 U4)).
Defined.

(** X2: on 20-bit raw values both conversions are monotone, and one raw
    step changes the result by at most one tenth of a unit. *)
Theorem conversions_are_monotone (r1 r2 : Z) :
  0 <= r1 -> r1 <= r2 -> r2 < 2 ^ 20 ->
  Aht20.conv_humidity r1 <= Aht20.conv_humidity r2
  /\ Aht20.conv_temperature r1 <= Aht20.conv_temperature r2
  /\ (r2 = r1 + 1 ->
      Aht20.conv_humidity r2 <= Aht20.conv_humidity r1 + 1
      /\ Aht20.conv_temperature r2 <= Aht20.conv_temperature r1 + 1).
Proof.
  intros H0 H12 H2.
  rewrite !conv_humidity_exact, !conv_temperature_exact by lia.
  change (2 ^ 20) with 1048576 in *.
  repeat split; Z.div_mod_to_equations; lia.
Qed.

Lemma conversions_are_monotone_witness :
  0 <= 0x19999 /\ 0x19999 <= 0x1999A /\ 0x1999A < 2 ^ 20
  /\ Aht20.conv_humidity 0x19999 <= Aht20.conv_humidity 0x1999A.
Proof.
  assert (A : 0 <= 0x19999) by lia.
  assert (B : 0x19999 <= 0x1999A) by lia.
  assert (C : 0x1999A < 2 ^ 20) by (change (2 ^ 20) with 1048576; lia).
  split; [exact A |]. split; [exact B |]. split; [exact C |].
  exact (proj1 (conversions_are_monotone 0x19999 0x1999A A B C)).
Defined.

(** X3: every humidity of [0, 1000) and every temperature of
    [-500, 1500) is the conversion of some 20-bit raw value. *)
Theorem conversions_reach_their_ranges (h t : Z) :
  0 <= h < 1000 -> -500 <= t < 1500 ->
  (exists raw, 0 <= raw < 2 ^ 20 /\ Aht20.conv_humidity raw = h)
  /\ (exists raw, 0 <= raw < 2 ^ 20 /\ Aht20.conv_temperature raw = t).
Proof.
  intros Hh Ht. split.
  - exists ((h * 1048576 + 999) / 1000).
    assert (R : 0 <= (h * 1048576 + 999) / 1000 < 2 ^ 20)
      by (change (2 ^ 20) with 1048576; Z.div_mod_to_equations; lia).
    split; [exact R |]. rewrite conv_humidity_exact by exact R.
    change (2 ^ 20) with 1048576 in *. Z.div_mod_to_equations; lia.
  - exists (((t + 500) * 1048576 + 1999) / 2000).
    assert (R : 0 <= ((t + 500) * 1048576 + 1999) / 2000 < 2 ^ 20)
      by (change (2 ^ 20) with 1048576; Z.div_mod_to_equations; lia).
    split; [exact R |]. rewrite conv_temperature_exact by exact R.
    change (2 ^ 20) with 1048576 in *. Z.div_mod_to_equations; lia.
Qed.

Lemma conversions_reach_their_ranges_witness :
  0 <= 999 < 1000 /\ -500 <= -500 < 1500
  /\ (exists raw, 0 <= raw < 2 ^ 20 /\ Aht20.conv_humidity raw = 999)
  /\ (exists raw, 0 <= raw < 2 ^ 20 /\ Aht20.conv_temperature raw = -500).
Proof.
  assert (A : 0 <= 999 < 1000) by lia.
  assert (B : -500 <= -500 < 1500) by lia.
  split; [exact A |]. split; [exact B |].
  exact (conversions_reach_their_ranges 999 (-500) A B).
Defined.

(** X4: [AHT20_ReadData] of [i2c_driver.c] with a live sensor client.
    A negative trigger status is returned as it is after one transfer, with
    no wait and no read; a negative read status is returned as it is after
    two transfers; otherwise, for any non-negative statuses, it returns 0
    with the decoded values.  A value is written exactly when the status is
    not negative, and kernel, device list and globals are left alone. *)
Theorem V1_read_data_outcome (w : world V1.globals) (c : i2c_client) :
  V1.etx_i2c_client_aht (glob w) = Ptr c ->
  let s0 := xfer_ret (kern w) (nxfer w) in
  let s1 := xfer_ret (kern w) (S (nxfer w)) in
  let d := rx_data (kern w) (S (nxfer w)) in
  exists r o w',
    V1.AHT20_ReadData w = Done (r, o) w'
    /\ kern w' = kern w /\ devices w' = devices w /\ glob w' = glob w
    /\ (s0 < 0 ->
        r = s0 /\ o = None /\ nxfer w' = S (nxfer w)
        /\ trace w' =
             trace w ++
               [MasterSend c [0xAC; 0x33; 0x00];
                Printk KERN_ERR "AHT20: Trigger measurement failed" []])
    /\ (0 <= s0 -> s1 < 0 ->
        r = s1 /\ o = None /\ nxfer w' = S (S (nxfer w))
        /\ trace w' =
             trace w ++
               [MasterSend c [0xAC; 0x33; 0x00]; Msleep 80; MasterRecv c 6;
                Printk KERN_ERR "AHT20: Data read failed" []])
    /\ (0 <= s0 -> 0 <= s1 ->
        r = 0
        /\ o = Some (Aht20.conv_temperature (Aht20.raw_temperature d),
                     Aht20.conv_humidity (Aht20.raw_humidity d))
        /\ nxfer w' = S (S (nxfer w)))
    /\ (o = None <-> r < 0).
Proof.
  intros H s0 s1 d.
  destruct (Z.lt_ge_cases s0 0) as [T | T].
  - do 3 eexists. split; [apply (V1_ReadData_trigger_failure w c H T) |].
    cbn [kern trace nxfer devices glob]. fold s0.
    repeat split; try reflexivity; try lia; intros; lia.
  - destruct (Z.lt_ge_cases s1 0) as [F | F].
    + do 3 eexists. split; [apply (V1_ReadData_recv_failure w c H T F) |].
      cbn [kern trace nxfer devices glob]. fold s1.
      repeat split; try reflexivity; try lia; intros; lia.
    + do 3 eexists. split; [apply (V1_ReadData_success w c H T F) |].
      cbn [kern trace nxfer devices glob].
      repeat split; try reflexivity; try lia; intros; try lia; discriminate.
Qed.

Lemma V1_read_data_outcome_witness :
  V1.etx_i2c_client_aht (glob (V1_bound read_fails)) = Ptr V1.aht20_i2c_board_info
  /\ exists w',
       V1.AHT20_ReadData (V1_bound read_fails) = Done (- EIO, None) w'
       /\ nxfer w' = 2%nat.
Proof.
  split; [reflexivity |].
  destruct (V1_read_data_outcome (V1_bound read_fails)
              V1.aht20_i2c_board_info eq_refl)
    as (r & o & w' & R & _ & _ & _ & _ & Hrecv & _).
  assert (P0 : 0 <= xfer_ret (kern (V1_bound read_fails))
                             (nxfer (V1_bound read_fails))) by (simpl; lia).
  assert (P1 : xfer_ret (kern (V1_bound read_fails))
                        (S (nxfer (V1_bound read_fails))) < 0) by (simpl; lia).
  destruct (Hrecv P0 P1) as (Er & Eo & En & _).
  exists w'. rewrite R, Er, Eo. split; [reflexivity | exact En].
Defined.

Section ReadingRanges.

Lemma decoded_in_range (d : list Z) :
  is_u8 (nth 1 d 0) -> is_u8 (nth 2 d 0) -> is_u8 (nth 3 d 0) ->
  is_u8 (nth 4 d 0) -> is_u8 (nth 5 d 0) ->
  -500 <= Aht20.conv_temperature (Aht20.raw_temperature d) < 1500
  /\ 0 <= Aht20.conv_humidity (Aht20.raw_humidity d) < 1000.
Proof.
  intros H1 H2 H3 H4 H5.
  destruct (raw_humidity_bits d H1 H2 H3) as [_ Rh].
  destruct (raw_temperature_bits d H3 H4 H5) as [_ Rt].
  rewrite conv_temperature_exact by exact Rt.
  rewrite conv_humidity_exact by exact Rh.
  change (2 ^ 20) with 1048576 in *.
  split; Z.div_mod_to_equations; lia.
Qed.

End ReadingRanges.

(** X5: whatever bytes the sensor answers, the reading delivered by
    [AHT20_ReadData] after two successful transfers, and the reading copied
    to the caller by the ReadData request of [i2c_client_driver.c], has its
    temperature in [-500, 1500) and its humidity in [0, 1000). *)
Theorem delivered_readings_are_in_range
        (w1 : world V1.globals) (w2 : world V2.globals)
        (c1 c2 : i2c_client) (arg : Z) :
  V1.etx_i2c_client_aht (glob w1) = Ptr c1 ->
  0 <= xfer_ret (kern w1) (nxfer w1) ->
  0 <= xfer_ret (kern w1) (S (nxfer w1)) ->
  Forall is_u8 (rx_data (kern w1) (S (nxfer w1))) ->
  V2.aht20_client (glob w2) = Ptr c2 ->
  Forall is_u8 (rx_data (kern w2) (S (nxfer w2))) ->
  user_writable (kern w2) arg = true ->
  (exists t h w',
      V1.AHT20_ReadData w1 = Done (0, Some (t, h)) w'
      /\ -500 <= t < 1500 /\ 0 <= h < 1000)
  /\ (exists data w',
         V2.aht20_ioctl V2.AHT20_READ_DATA arg w2 = Done 0 w'
         /\ In (CopyToUser arg data) (trace w')
         /\ -500 <= temperature data < 1500 /\ 0 <= humidity data < 1000).
Proof.
  intros H1 T1 R1 B1 H2 B2 U2.
  assert (byte_at : forall d i, Forall is_u8 d -> is_u8 (nth i d 0)).
  { intros d i B. destruct (nth_in_or_default i d 0) as [I | E].
    - rewrite Forall_forall in B. now apply B.
    - rewrite E. unfold is_u8. lia. }
  split.
  - destruct (decoded_in_range _ (byte_at _ 1%nat B1) (byte_at _ 2%nat B1)
                (byte_at _ 3%nat B1) (byte_at _ 4%nat B1) (byte_at _ 5%nat B1))
      as [Rt Rh].
    do 3 eexists. split; [apply (V1_ReadData_success w1 c1 H1 T1 R1) |].
    split; [exact Rt | exact Rh].
  - destruct (decoded_in_range _ (byte_at _ 1%nat B2) (byte_at _ 2%nat B2)
                (byte_at _ 3%nat B2) (byte_at _ 4%nat B2) (byte_at _ 5%nat B2))
      as [Rt Rh].
    do 2 eexists. rewrite (V2_aht20_ioctl_run w2 c2 arg H2), U2.
    split; [reflexivity |]. cbn [trace temperature humidity].
    split.
    + apply in_or_app. right. right. right. right. left. reflexivity.
    + split; [exact Rt | exact Rh].
Qed.

Lemma delivered_readings_are_in_range_witness :
  V1.etx_i2c_client_aht (glob (V1_bound cold_sensor)) = Ptr V1.aht20_i2c_board_info
  /\ 0 <= xfer_ret cold_sensor 0 /\ 0 <= xfer_ret cold_sensor 1
  /\ Forall is_u8 (rx_data cold_sensor 1)
  /\ V2.aht20_client (glob (V2_bound cold_sensor)) = Ptr V2.aht20_info
  /\ user_writable cold_sensor 0x7000 = true
  /\ (exists t h w',
         V1.AHT20_ReadData (V1_bound cold_sensor) = Done (0, Some (t, h)) w'
         /\ -500 <= t < 1500 /\ 0 <= h < 1000).
Proof.
  assert (P0 : 0 <= xfer_ret cold_sensor 0) by (simpl; lia).
  assert (P1 : 0 <= xfer_ret cold_sensor 1) by (simpl; lia).
  assert (B : Forall is_u8 (rx_data cold_sensor 1)).
  { simpl. repeat constructor; unfold is_u8; lia. }
  split; [reflexivity |]. split; [exact P0 |]. split; [exact P1 |].
  split; [exact B |]. split; [reflexivity |]. split; [reflexivity |].
  exact (proj1 (delivered_readings_are_in_range
                  (V1_bound cold_sensor) (V2_bound cold_sensor)
                  V1.aht20_i2c_board_info V2.aht20_info 0x7000
                  eq_refl P0 P1 B eq_refl B eq_refl)).
Defined.

(** ** Start-up: adapter and device selection *)

Section Selection.

(** [AHT20_ReadData] with a live client always returns, after at most two
    transfers. *)
Lemma V1_ReadData_cost (w : world V1.globals) (c : i2c_client) :
  V1.etx_i2c_client_aht (glob w) = Ptr c ->
  exists r w' t,
    V1.AHT20_ReadData w = Done r w'
    /\ kern w' = kern w /\ devices w' = devices w /\ glob w' = glob w
    /\ (nxfer w' <= nxfer w + 2)%nat
    /\ trace w' = trace w ++ t.
Proof.
  intros H.
  destruct (Z.lt_ge_cases (xfer_ret (kern w) (nxfer w)) 0) as [T | T].
  - rewrite (V1_ReadData_trigger_failure w c H T).
    do 3 eexists. repeat split; try reflexivity. cbn [nxfer]. lia.
  - destruct (Z.lt_ge_cases (xfer_ret (kern w) (S (nxfer w))) 0) as [F | F].
    + rewrite (V1_ReadData_recv_failure w c H T F).
      do 3 eexists. repeat split; try reflexivity. cbn [nxfer]. lia.
    + rewrite (V1_ReadData_success w c H T F).
      do 3 eexists. repeat split; try reflexivity. cbn [nxfer]. lia.
Qed.

(** [etx_driver_init] up to the adapter test. *)
Lemma V1_init_after_adapter (k : kernel) (sel : Z) :
  V1.etx_driver_init (V1.at_load k sel) =
    (if adapter_at k 1 then
       V1.init_oled_if_selected sel ;;
       V1.init_aht20_if_selected sel ;;
       i2c_put_adapter ;;
       printk KERN_ALERT "ETX_I2C: Module loaded and visible on console!" [] ;;
       ret 0
     else
       printk KERN_ERR "ETX_I2C: Cannot get I2C adapter %d" [1] ;;
       ret (- ENODEV))
      (World k
             [Printk KERN_INFO
                     "ETX_I2C: Module init started (select_device = %d)" [sel];
              Printk KERN_INFO "ETX_I2C: Selected device = %d" [sel];
              GetAdapter 1]
             0 [] (V1.Globals (adapter_at k 1) NULL NULL sel)).
Proof.
  unfold V1.etx_driver_init, V1.at_load.
  erewrite bind_done by reflexivity. cbv beta zeta. cbn [glob V1.select_device].
  erewrite bind_done by reflexivity.
  erewrite bind_done by reflexivity.
  erewrite bind_done by reflexivity.
  erewrite bind_done by reflexivity.
  cbn [kern trace nxfer devices glob app V1.etx_i2c_adapter
       V1.etx_i2c_client_oled V1.etx_i2c_client_aht V1.select_device].
  unfold V1.I2C_BUS_AVAILABLE. destruct (adapter_at k 1); reflexivity.
Qed.

(** The sensor block, device created: as [V1_init_aht20_ok], with the
    device list. *)
Lemma V1_init_aht20_created (w : world V1.globals) (sel : Z) :
  sel = 0 \/ sel = 2 ->
  devices w = [] \/ devices w = [V1.oled_i2c_board_info] ->
  new_device_errno (kern w) V1.aht20_i2c_board_info = 0 ->
  exists w' t,
    V1.init_aht20_if_selected sel w = Done tt w'
    /\ kern w' = kern w
    /\ devices w' = devices w ++ [V1.aht20_i2c_board_info]
    /\ glob w' = V1.Globals (V1.etx_i2c_adapter (glob w))
                            (V1.etx_i2c_client_oled (glob w))
                            (Ptr V1.aht20_i2c_board_info)
                            (V1.select_device (glob w))
    /\ (nxfer w' <= nxfer w + 3)%nat
    /\ trace w' = trace w ++ t.
Proof.
  intros Hs D E. unfold V1.init_aht20_if_selected.
  replace ((sel =? 0) || (sel =? 2)) with true by (destruct Hs; subst; reflexivity).
  rewrite (bind_done _ _ _ _ _ (new_device_ok _ w E)).
  cbn [IS_ERR].
  erewrite bind_done by reflexivity.
  unfold i2c_add_driver.
  assert (P : forall w0 : world V1.globals,
             exists w1 t,
               V1.aht20_probe (Ptr V1.aht20_i2c_board_info) w0 = Done 0 w1
               /\ kern w1 = kern w0 /\ devices w1 = devices w0
               /\ glob w1 = V1.Globals (V1.etx_i2c_adapter (glob w0))
                                       (V1.etx_i2c_client_oled (glob w0))
                                       (Ptr V1.aht20_i2c_board_info)
                                       (V1.select_device (glob w0))
               /\ (nxfer w1 <= nxfer w0 + 3)%nat
               /\ trace w1 = trace w0 ++ t).
  { intros w0. unfold V1.aht20_probe.
    erewrite bind_done by reflexivity.
    erewrite bind_done by reflexivity.
    erewrite bind_done by (apply (V1_Init_run _ V1.aht20_i2c_board_info); reflexivity).
    cbn [kern trace nxfer devices glob].
    match goal with
    | |- context [bind V1.AHT20_ReadData _ ?wi] =>
        destruct (V1_ReadData_cost wi V1.aht20_i2c_board_info eq_refl)
          as (r & w1 & t & R & K & Dv & Gl & N & T)
    end.
    rewrite (bind_done _ _ _ _ _ R).
    exists w1. eexists. split; [reflexivity |].
    cbn [kern trace nxfer devices glob] in K, Dv, Gl, T, N.
    split; [exact K |]. split; [exact Dv |]. split; [exact Gl |].
    split; [lia |].
    rewrite T. repeat rewrite <- app_assoc. reflexivity. }
  match goal with
  | |- context [bind (bind (emit ?e) _) _ ?w0] =>
      destruct (P (World (kern w0) (trace w0 ++ [e]) (nxfer w0) (devices w0) (glob w0)))
        as (w' & t & R & K & Dv & Gl & N & T)
  end.
  cbn [kern trace nxfer devices glob] in R, K, Dv, Gl, N, T.
  erewrite bind_done.
  2:{ erewrite bind_done by reflexivity. cbn [kern trace nxfer devices glob].
      destruct D as [D | D]; rewrite D in R |- *;
        cbn [app probe_matching] in R |- *.
      - change (String.eqb (dev_name V1.aht20_i2c_board_info)
                           (id_table V1.aht20_driver)) with true.
        cbv iota. cbn [probe V1.aht20_driver].
        erewrite bind_done.
        2:{ erewrite bind_done by exact R. reflexivity. }
        reflexivity.
      - change (String.eqb (dev_name V1.oled_i2c_board_info)
                           (id_table V1.aht20_driver)) with false.
        change (String.eqb (dev_name V1.aht20_i2c_board_info)
                           (id_table V1.aht20_driver)) with true.
        cbv iota. cbn [probe V1.aht20_driver].
        erewrite bind_done by reflexivity.
        erewrite bind_done.
        2:{ erewrite bind_done by exact R. reflexivity. }
        reflexivity. }
  eexists. eexists. split; [reflexivity |].
  cbn [kern trace nxfer devices glob].
  split; [exact K |]. split; [exact Dv |]. split; [exact Gl |].
  split; [exact N |].
  rewrite T. repeat rewrite <- app_assoc. reflexivity.
Qed.

End Selection.

Section Blocks.

Lemma selected_cases (sel a b : Z) :
  (sel =? a) || (sel =? b) = true -> sel = a \/ sel = b.
Proof.
  intros H. apply orb_true_iff in H. destruct H as [H | H];
    apply Z.eqb_eq in H; auto.
Qed.

(** The display block always completes; it keeps the kernel, the adapter
    flag, the sensor pointer and the selection, and creates at most the
    display client. *)
Lemma V1_init_oled_total (w : world V1.globals) (sel : Z) :
  devices w = [] ->
  exists w' t,
    V1.init_oled_if_selected sel w = Done tt w'
    /\ kern w' = kern w /\ trace w' = trace w ++ t
    /\ (devices w' = [] \/ devices w' = [V1.oled_i2c_board_info])
    /\ V1.etx_i2c_adapter (glob w') = V1.etx_i2c_adapter (glob w)
    /\ V1.etx_i2c_client_aht (glob w') = V1.etx_i2c_client_aht (glob w)
    /\ V1.select_device (glob w') = V1.select_device (glob w).
Proof.
  intros D. destruct ((sel =? 0) || (sel =? 1)) eqn:Sel.
  - apply selected_cases in Sel.
    destruct (Z.eq_dec (new_device_errno (kern w) V1.oled_i2c_board_info) 0)
      as [E | E].
    + rewrite (V1_init_oled_ok w sel Sel D E).
      do 2 eexists. split; [reflexivity |]. cbn [kern trace devices glob].
      split; [reflexivity |]. split; [reflexivity |].
      split; [right; reflexivity |]. repeat split.
    + rewrite (V1_init_oled_failed w sel Sel E).
      do 2 eexists. split; [reflexivity |]. cbn [kern trace devices glob].
      split; [reflexivity |]. split; [reflexivity |].
      split; [left; exact D |]. repeat split.
  - unfold V1.init_oled_if_selected. rewrite Sel.
    exists w, []. split; [reflexivity |]. rewrite app_nil_r.
    split; [reflexivity |]. split; [reflexivity |].
    split; [left; exact D |]. repeat split.
Qed.

(** The sensor block always completes; it keeps the kernel, the adapter
    flag, the display pointer and the selection. *)
Lemma V1_init_aht20_total (w : world V1.globals) (sel : Z) :
  devices w = [] \/ devices w = [V1.oled_i2c_board_info] ->
  exists w' t,
    V1.init_aht20_if_selected sel w = Done tt w'
    /\ kern w' = kern w /\ trace w' = trace w ++ t
    /\ V1.etx_i2c_adapter (glob w') = V1.etx_i2c_adapter (glob w)
    /\ V1.etx_i2c_client_oled (glob w') = V1.etx_i2c_client_oled (glob w)
    /\ V1.select_device (glob w') = V1.select_device (glob w).
Proof.
  intros D. destruct ((sel =? 0) || (sel =? 2)) eqn:Sel.
  - apply selected_cases in Sel.
    destruct (Z.eq_dec (new_device_errno (kern w) V1.aht20_i2c_board_info) 0)
      as [E | E].
    + destruct (V1_init_aht20_created w sel Sel D E)
        as (w' & t & R & K & _ & Gl & _ & T).
      exists w', t. split; [exact R |]. split; [exact K |].
      split; [exact T |]. rewrite Gl. repeat split.
    + rewrite (V1_init_aht20_failed w sel Sel E).
      do 2 eexists. split; [reflexivity |]. cbn [kern trace devices glob].
      split; [reflexivity |]. split; [reflexivity |]. repeat split.
  - unfold V1.init_aht20_if_selected. rewrite Sel.
    exists w, []. split; [reflexivity |]. rewrite app_nil_r.
    split; [reflexivity |]. split; [reflexivity |]. repeat split.
Qed.

End Blocks.

Section LoadingV2.

Lemma V2_init_no_adapter (k : kernel) :
  adapter_at k 1 = false ->
  V2.etx_init (V2.at_load k) =
    Done (- ENODEV) (World k [GetAdapter 1] 0 [] (V2.Globals false NULL NULL)).
Proof.
  intros A. unfold V2.etx_init, V2.at_load.
  erewrite bind_done by reflexivity.
  erewrite bind_done by reflexivity.
  cbn [kern trace nxfer devices glob app]. unfold V2.I2C_BUS_AVAILABLE.
  rewrite A. reflexivity.
Qed.

Lemma V2_init_all_created (k : kernel) :
  adapter_at k 1 = true ->
  new_device_errno k V2.oled_info = 0 ->
  new_device_errno k V2.aht20_info = 0 ->
  V2.etx_init (V2.at_load k) = Done 0 (V2_loaded k).
Proof.
  intros A EO EA. unfold V2.etx_init, V2.at_load.
  erewrite bind_done by reflexivity.
  erewrite bind_done by reflexivity.
  cbn [kern trace nxfer devices glob app]. unfold V2.I2C_BUS_AVAILABLE. rewrite A.
  cbn [negb V2.i2c_adap V2.oled_client V2.aht20_client].
  erewrite bind_done by (apply new_device_ok; exact EO).
  erewrite bind_done by reflexivity.
  cbn [IS_ERR].
  erewrite bind_done by (apply new_device_ok; exact EA).
  erewrite bind_done by reflexivity.
  cbn [IS_ERR].
  reflexivity.
Qed.

End LoadingV2.

(** X6: without an adapter at bus 1 both modules fail to load with
    [-ENODEV] right after [i2c_get_adapter]: no client is created, no
    driver registered, and the adapter is not released. *)
Theorem no_adapter_is_ENODEV (k : kernel) (sel : Z) :
  adapter_at k 1 = false ->
  V1.etx_driver_init (V1.at_load k sel) =
    Done (- ENODEV)
      (World k
             [Printk KERN_INFO
                     "ETX_I2C: Module init started (select_device = %d)" [sel];
              Printk KERN_INFO "ETX_I2C: Selected device = %d" [sel];
              GetAdapter 1;
              Printk KERN_ERR "ETX_I2C: Cannot get I2C adapter %d" [1]]
             0 [] (V1.Globals false NULL NULL sel))
  /\ V2.etx_init (V2.at_load k) =
       Done (- ENODEV)
         (World k [GetAdapter 1] 0 [] (V2.Globals false NULL NULL)).
Proof.
  intros A. split.
  - rewrite V1_init_after_adapter, A. reflexivity.
  - apply V2_init_no_adapter. exact A.
Qed.

Lemma no_adapter_is_ENODEV_witness :
  adapter_at no_adapter 1 = false
  /\ V2.etx_init (V2.at_load no_adapter) =
       Done (- ENODEV)
         (World no_adapter [GetAdapter 1] 0 [] (V2.Globals false NULL NULL)).
Proof.
  split; [reflexivity |].
  exact (proj2 (no_adapter_is_ENODEV no_adapter 0 eq_refl)).
Defined.

(** X7: [i2c_driver.c] loaded with a [select_device] other than 0, 1
    or 2 takes and releases the adapter, registers nothing and returns 0. *)
Theorem V1_unknown_selection_registers_nothing (k : kernel) (sel : Z) :
  adapter_at k 1 = true ->
  sel <> 0 -> sel <> 1 -> sel <> 2 ->
  V1.etx_driver_init (V1.at_load k sel) =
    Done 0
      (World k
             [Printk KERN_INFO
                     "ETX_I2C: Module init started (select_device = %d)" [sel];
              Printk KERN_INFO "ETX_I2C: Selected device = %d" [sel];
              GetAdapter 1;
              PutAdapter;
              Printk KERN_ALERT
                     "ETX_I2C: Module loaded and visible on console!" []]
             0 [] (V1.Globals true NULL NULL sel)).
Proof.
  intros A N0 N1 N2. rewrite V1_init_after_adapter, A.
  unfold V1.init_oled_if_selected, V1.init_aht20_if_selected.
  apply Z.eqb_neq in N0, N1, N2. rewrite N0, N1, N2. reflexivity.
Qed.

Lemma V1_unknown_selection_registers_nothing_witness :
  adapter_at good_kernel 1 = true /\ 3 <> 0 /\ 3 <> 1 /\ 3 <> 2
  /\ V1.etx_driver_init (V1.at_load good_kernel 3) =
       Done 0
         (World good_kernel
                [Printk KERN_INFO
                        "ETX_I2C: Module init started (select_device = %d)" [3];
                 Printk KERN_INFO "ETX_I2C: Selected device = %d" [3];
                 GetAdapter 1;
                 PutAdapter;
                 Printk KERN_ALERT
                        "ETX_I2C: Module loaded and visible on console!" []]
                0 [] (V1.Globals true NULL NULL 3)).
Proof.
  assert (N0 : 3 <> 0) by lia. assert (N1 : 3 <> 1) by lia.
  assert (N2 : 3 <> 2) by lia.
  split; [reflexivity |]. split; [exact N0 |]. split; [exact N1 |].
  split; [exact N2 |].
  exact (V1_unknown_selection_registers_nothing good_kernel 3 eq_refl N0 N1 N2).
Defined.

(** X8: [i2c_driver.c] loaded with [select_device = 1] handles the
    display only: the display is created, probed (26 commands and the
    fill) and its driver added, or its failure is logged; the sensor client
    is never created and start-up returns 0 in both cases. *)
Theorem V1_display_only_selection (k : kernel) :
  adapter_at k 1 = true ->
  let started :=
    [Printk KERN_INFO "ETX_I2C: Module init started (select_device = %d)" [1];
     Printk KERN_INFO "ETX_I2C: Selected device = %d" [1];
     GetAdapter 1] in
  let finished :=
    [PutAdapter;
     Printk KERN_ALERT "ETX_I2C: Module loaded and visible on console!" []] in
  (new_device_errno k V1.oled_i2c_board_info = 0 ->
   V1.etx_driver_init (V1.at_load k 1) =
     Done 0
       (World k
              (started
                 ++ NewClientDevice V1.oled_i2c_board_info
                 :: AddDriver V1.SLAVE_DEVICE_NAME
                 :: Printk KERN_INFO "ETX_OLED: Device probed successfully" []
                 :: Msleep 100
                 :: map (cmd_write V1.oled_i2c_board_info) V1_init_cmds
                 ++ fill_events V1.oled_i2c_board_info 0xFF
                 ++ Printk KERN_INFO "ETX_OLED: Driver added" [] :: finished)
              (Z.to_nat (128 * 8) + 26) [V1.oled_i2c_board_info]
              (V1.Globals true (Ptr V1.oled_i2c_board_info) NULL 1)))
  /\ (new_device_errno k V1.oled_i2c_board_info <> 0 ->
      V1.etx_driver_init (V1.at_load k 1) =
        Done 0
          (World k
                 (started
                    ++ NewClientDevice V1.oled_i2c_board_info
                    :: Printk KERN_ERR "ETX_OLED: Failed to register OLED device" []
                    :: finished)
                 0 [] (V1.Globals true NULL NULL 1))).
Proof.
  intros A started finished. rewrite V1_init_after_adapter, A. split; intros E.
  - match goal with
    | |- context [bind (V1.init_oled_if_selected 1) _ ?w] =>
        rewrite (bind_done _ _ _ _ _
                   (V1_init_oled_ok w 1 (or_intror eq_refl) eq_refl E))
    end.
    unfold V1.init_aht20_if_selected. cbn [Z.eqb orb Pos.eqb].
    erewrite bind_done by reflexivity.
    erewrite bind_done by reflexivity.
    erewrite bind_done by reflexivity.
    unfold ret. cbn [kern trace nxfer devices glob V1.etx_i2c_adapter
                     V1.etx_i2c_client_aht V1.select_device].
    unfold started, finished. repeat rewrite <- app_assoc. reflexivity.
  - match goal with
    | |- context [bind (V1.init_oled_if_selected 1) _ ?w] =>
        rewrite (bind_done _ _ _ _ _
                   (V1_init_oled_failed w 1 (or_intror eq_refl) E))
    end.
    reflexivity.
Qed.

Lemma V1_display_only_selection_witness :
  adapter_at (busy_at 0x3C) 1 = true
  /\ new_device_errno (busy_at 0x3C) V1.oled_i2c_board_info <> 0
  /\ V1.etx_driver_init (V1.at_load (busy_at 0x3C) 1) =
       Done 0
         (World (busy_at 0x3C)
                [Printk KERN_INFO
                        "ETX_I2C: Module init started (select_device = %d)" [1];
                 Printk KERN_INFO "ETX_I2C: Selected device = %d" [1];
                 GetAdapter 1;
                 NewClientDevice V1.oled_i2c_board_info;
                 Printk KERN_ERR "ETX_OLED: Failed to register OLED device" [];
                 PutAdapter;
                 Printk KERN_ALERT
                        "ETX_I2C: Module loaded and visible on console!" []]
                0 [] (V1.Globals true NULL NULL 1)).
Proof.
  assert (E : new_device_errno (busy_at 0x3C) V1.oled_i2c_board_info <> 0)
    by (vm_compute; discriminate).
  split; [reflexivity |]. split; [exact E |].
  exact (proj2 (V1_display_only_selection (busy_at 0x3C) eq_refl) E).
Defined.

(** X9: [i2c_driver.c] loaded with [select_device = 2] handles the
    sensor only: the display pointer stays [NULL], no display client is
    created, at most three bus transfers are made, and start-up returns 0
    whether the sensor client could be created or not. *)
Theorem V1_sensor_only_selection (k : kernel) :
  adapter_at k 1 = true ->
  exists w',
    V1.etx_driver_init (V1.at_load k 2) = Done 0 w'
    /\ V1.etx_i2c_client_oled (glob w') = NULL
    /\ ~ In V1.oled_i2c_board_info (devices w')
    /\ (nxfer w' <= 3)%nat
    /\ (new_device_errno k V1.aht20_i2c_board_info = 0 ->
        V1.etx_i2c_client_aht (glob w') = Ptr V1.aht20_i2c_board_info
        /\ devices w' = [V1.aht20_i2c_board_info])
    /\ (new_device_errno k V1.aht20_i2c_board_info <> 0 ->
        V1.etx_i2c_client_aht (glob w') = NULL
        /\ devices w' = [] /\ nxfer w' = 0%nat).
Proof.
  intros A. rewrite V1_init_after_adapter, A.
  assert (O : forall w : world V1.globals,
             V1.init_oled_if_selected 2 w = Done tt w) by reflexivity.
  rewrite (bind_done _ _ _ _ _ (O _)).
  destruct (Z.eq_dec (new_device_errno k V1.aht20_i2c_board_info) 0) as [E | E].
  - match goal with
    | |- context [bind (V1.init_aht20_if_selected 2) _ ?w] =>
        destruct (V1_init_aht20_created w 2 (or_intror eq_refl)
                                        (or_introl eq_refl) E)
          as (w' & t & R & K & Dv & Gl & N & T)
    end.
    cbn [kern trace nxfer devices glob app V1.etx_i2c_adapter
         V1.etx_i2c_client_oled V1.select_device] in K, Dv, Gl, N, T.
    rewrite (bind_done _ _ _ _ _ R).
    erewrite bind_done by reflexivity.
    erewrite bind_done by reflexivity.
    eexists. split; [reflexivity |].
    cbn [kern trace nxfer devices glob]. rewrite Gl, Dv.
    split; [reflexivity |].
    split; [intros [F | []]; discriminate F |].
    split; [exact N |].
    split; [intros _; split; reflexivity | intros F; contradiction].
  - match goal with
    | |- context [bind (V1.init_aht20_if_selected 2) _ ?w] =>
        rewrite (bind_done _ _ _ _ _
                   (V1_init_aht20_failed w 2 (or_intror eq_refl) E))
    end.
    eexists. split; [reflexivity |].
    cbn [kern trace nxfer devices glob V1.etx_i2c_client_oled
         V1.etx_i2c_client_aht].
    split; [reflexivity |]. split; [intros []|].
    split; [lia |].
    split; [intros F; contradiction | intros _; repeat split].
Qed.

Lemma V1_sensor_only_selection_witness :
  adapter_at failing_bus 1 = true
  /\ exists w',
       V1.etx_driver_init (V1.at_load failing_bus 2) = Done 0 w'
       /\ V1.etx_i2c_client_oled (glob w') = NULL
       /\ V1.etx_i2c_client_aht (glob w') = Ptr V1.aht20_i2c_board_info.
Proof.
  split; [reflexivity |].
  destruct (V1_sensor_only_selection failing_bus eq_refl)
    as (w' & R & O & _ & _ & Hok & _).
  exists w'. split; [exact R |]. split; [exact O |].
  exact (proj1 (Hok eq_refl)).
Defined.

(** X10: once the adapter exists, [etx_driver_init] returns 0 for every
    [select_device] and every outcome of device creation and bus transfers,
    and its last two calls release the adapter and log the load. *)
Theorem V1_init_succeeds_whenever_adapter_exists (k : kernel) (sel : Z) :
  adapter_at k 1 = true ->
  exists w' t,
    V1.etx_driver_init (V1.at_load k sel) = Done 0 w'
    /\ kern w' = k
    /\ V1.etx_i2c_adapter (glob w') = true
    /\ V1.select_device (glob w') = sel
    /\ trace w' =
         t ++ [PutAdapter;
               Printk KERN_ALERT
                      "ETX_I2C: Module loaded and visible on console!" []].
Proof.
  intros A. rewrite V1_init_after_adapter, A.
  match goal with
  | |- context [bind (V1.init_oled_if_selected sel) _ ?w] =>
      destruct (V1_init_oled_total w sel eq_refl)
        as (w1 & t1 & R1 & K1 & T1 & D1 & A1 & _ & S1)
  end.
  rewrite (bind_done _ _ _ _ _ R1).
  destruct (V1_init_aht20_total w1 sel D1)
    as (w2 & t2 & R2 & K2 & T2 & A2 & _ & S2).
  rewrite (bind_done _ _ _ _ _ R2).
  erewrite bind_done by reflexivity.
  erewrite bind_done by reflexivity.
  eexists. eexists. split; [reflexivity |].
  cbn [kern trace nxfer devices glob V1.etx_i2c_adapter V1.select_device] in *.
  split; [congruence |]. split; [congruence |]. split; [congruence |].
  rewrite T2, T1.
  rewrite <- app_assoc. reflexivity.
Qed.

Lemma V1_init_succeeds_whenever_adapter_exists_witness :
  adapter_at (busy_at 0x38) 1 = true
  /\ exists w',
       V1.etx_driver_init (V1.at_load (busy_at 0x38) 0) = Done 0 w'
       /\ V1.select_device (glob w') = 0.
Proof.
  split; [reflexivity |].
  destruct (V1_init_succeeds_whenever_adapter_exists (busy_at 0x38) 0 eq_refl)
    as (w' & t & R & _ & _ & Sd & _).
  exists w'. split; [exact R | exact Sd].
Defined.

(** ** Start-up and requests of [i2c_client_driver.c] *)

(** X11: when the adapter exists and both clients can be created,
    [etx_init] returns 0 and leaves [V2_loaded]: both clients created, the
    display probed with its four commands, both drivers and both character
    devices registered, and no transfer made to the sensor. *)
Theorem V2_init_success (k : kernel) :
  adapter_at k 1 = true ->
  new_device_errno k V2.oled_info = 0 ->
  new_device_errno k V2.aht20_info = 0 ->
  V2.etx_init (V2.at_load k) = Done 0 (V2_loaded k).
Proof.
  intros A EO EA. now apply V2_init_all_created.
Qed.

Lemma V2_init_success_witness :
  adapter_at good_kernel 1 = true
  /\ new_device_errno good_kernel V2.oled_info = 0
  /\ new_device_errno good_kernel V2.aht20_info = 0
  /\ V2.etx_init (V2.at_load good_kernel) = Done 0 (V2_loaded good_kernel).
Proof.
  split; [reflexivity |]. split; [reflexivity |]. split; [reflexivity |].
  exact (V2_init_success good_kernel eq_refl eq_refl eq_refl).
Defined.

(** X12: [etx_init] returns 0 only when the adapter exists and both
    clients were created; the world is then [V2_loaded], both client
    pointers are live, and the Clear, Fill and ReadData requests made on it
    complete, ReadData with 0 or [-EFAULT]. *)
Theorem V2_init_zero_means_loaded (k : kernel) (w : world V2.globals) (arg : Z) :
  V2.etx_init (V2.at_load k) = Done 0 w ->
  adapter_at k 1 = true
  /\ new_device_errno k V2.oled_info = 0
  /\ new_device_errno k V2.aht20_info = 0
  /\ w = V2_loaded k
  /\ (exists w', V2.oled_ioctl V2.OLED_CLEAR arg w = Done 0 w')
  /\ (exists w', V2.oled_ioctl V2.OLED_FILL arg w = Done 0 w')
  /\ (exists r w', V2.aht20_ioctl V2.AHT20_READ_DATA arg w = Done r w'
                   /\ (r = 0 \/ r = - EFAULT)).
Proof.
  intros R.
  destruct (adapter_at k 1) eqn:A.
  2:{ rewrite (V2_init_no_adapter k A) in R. discriminate R. }
  destruct (Z.eq_dec (new_device_errno k V2.oled_info) 0) as [EO | EO].
  2:{ rewrite (V2_init_oled_failed k A EO) in R. injection R as R _.
      contradiction. }
  destruct (Z.eq_dec (new_device_errno k V2.aht20_info) 0) as [EA | EA].
  2:{ rewrite (V2_init_aht20_failed k A EO EA) in R. injection R as R _.
      contradiction. }
  rewrite (V2_init_all_created k A EO EA) in R. injection R as <-.
  split; [reflexivity |]. split; [exact EO |]. split; [exact EA |].
  split; [reflexivity |].
  split; [| split].
  - eexists. unfold V2.oled_ioctl. rewrite Z.eqb_refl.
    erewrite bind_done by (apply (V2_clear_run _ V2.oled_info); reflexivity).
    reflexivity.
  - eexists. unfold V2.oled_ioctl.
    replace (V2.OLED_FILL =? V2.OLED_CLEAR) with false by reflexivity.
    rewrite Z.eqb_refl.
    erewrite bind_done by (apply (V2_fill_run _ V2.oled_info); reflexivity).
    reflexivity.
  - rewrite (V2_aht20_ioctl_run (V2_loaded k) V2.aht20_info arg eq_refl).
    destruct (user_writable (kern (V2_loaded k)) arg);
      do 2 eexists; (split; [reflexivity |]); [left | right]; reflexivity.
Qed.

Lemma V2_init_zero_means_loaded_witness :
  V2.etx_init (V2.at_load good_kernel) = Done 0 (V2_loaded good_kernel)
  /\ exists w',
       V2.oled_ioctl V2.OLED_CLEAR 0 (V2_loaded good_kernel) = Done 0 w'.
Proof.
  assert (R : V2.etx_init (V2.at_load good_kernel)
              = Done 0 (V2_loaded good_kernel)) by reflexivity.
  split; [exact R |].
  destruct (V2_init_zero_means_loaded good_kernel (V2_loaded good_kernel) 0 R)
    as (_ & _ & _ & _ & C & _).
  exact C.
Defined.

(** X13: a Fill request followed by a Clear request returns 0 twice and
    issues the 1024 data writes of 0xFF followed by the 1024 data writes of
    0x00, nothing in between. *)
Theorem fill_then_clear_issues_two_fills
        (w : world V2.globals) (c : i2c_client) (arg1 arg2 : Z) :
  V2.oled_client (glob w) = Ptr c ->
  fill_then_clear arg1 arg2 w =
    Done (0, 0)
      (World (kern w)
             (trace w ++ fill_events c 0xFF ++ fill_events c 0x00)
             (Z.to_nat (128 * 8) + (Z.to_nat (128 * 8) + nxfer w))
             (devices w) (glob w)).
Proof.
  intros H. unfold fill_then_clear, V2.oled_ioctl.
  replace (V2.OLED_FILL =? V2.OLED_CLEAR) with false by reflexivity.
  rewrite Z.eqb_refl.
  erewrite bind_done.
  2:{ erewrite bind_done by (apply (V2_fill_run _ c H)). reflexivity. }
  cbv beta. rewrite Z.eqb_refl.
  erewrite bind_done.
  2:{ erewrite bind_done by (apply (V2_clear_run _ c); exact H). reflexivity. }
  unfold ret. cbn [kern trace nxfer devices glob].
  rewrite <- app_assoc. reflexivity.
Qed.

Lemma fill_then_clear_issues_two_fills_witness :
  V2.oled_client (glob (V2_bound failing_bus)) = Ptr V2.oled_info
  /\ fill_then_clear 0 0 (V2_bound failing_bus) =
       Done (0, 0)
         (World failing_bus
                (fill_events V2.oled_info 0xFF ++ fill_events V2.oled_info 0x00)
                (Z.to_nat (128 * 8) + (Z.to_nat (128 * 8) + 0))
                [V2.oled_info; V2.aht20_info] (glob (V2_bound failing_bus))).
Proof.
  split; [reflexivity |].
  exact (fill_then_clear_issues_two_fills
           (V2_bound failing_bus) V2.oled_info 0 0 eq_refl).
Defined.

(** X14: a ReadData request whose destination is not writable returns
    [-EFAULT], after the measurement was triggered, waited for and read;
    nothing is copied. *)
Theorem V2_read_data_buffer_fault
        (w : world V2.globals) (c : i2c_client) (arg : Z) :
  V2.aht20_client (glob w) = Ptr c ->
  user_writable (kern w) arg = false ->
  V2.aht20_ioctl V2.AHT20_READ_DATA arg w =
    Done (- EFAULT)
      (World (kern w)
             (trace w ++
                [MasterSend c [0xAC; 0x33; 0x00]; Msleep 80; MasterRecv c 6])
             (S (S (nxfer w))) (devices w) (glob w)).
Proof.
  intros H U. rewrite (V2_aht20_ioctl_run w c arg H), U. reflexivity.
Qed.

Lemma V2_read_data_buffer_fault_witness :
  V2.aht20_client (glob (V2_bound unwritable_user)) = Ptr V2.aht20_info
  /\ user_writable unwritable_user 0 = false
  /\ V2.aht20_ioctl V2.AHT20_READ_DATA 0 (V2_bound unwritable_user) =
       Done (- EFAULT)
         (World unwritable_user
                [MasterSend V2.aht20_info [0xAC; 0x33; 0x00]; Msleep 80;
                 MasterRecv V2.aht20_info 6]
                2 [V2.oled_info; V2.aht20_info]
                (glob (V2_bound unwritable_user))).
Proof.
  split; [reflexivity |]. split; [reflexivity |].
  exact (V2_read_data_buffer_fault (V2_bound unwritable_user) V2.aht20_info 0
                                   eq_refl eq_refl).
Defined.

(** X15: for a reading between -0.9 and -0.1 degrees the line logged by
    [AHT20_ReadData] gets 0 as its integer part and the negative value as
    its fraction (it prints as 0.-5), since C division truncates. *)
Theorem V1_log_of_reading_just_below_zero
        (w : world V1.globals) (c : i2c_client) :
  V1.etx_i2c_client_aht (glob w) = Ptr c ->
  0 <= xfer_ret (kern w) (nxfer w) ->
  0 <= xfer_ret (kern w) (S (nxfer w)) ->
  let d := rx_data (kern w) (S (nxfer w)) in
  let t := Aht20.conv_temperature (Aht20.raw_temperature d) in
  let h := Aht20.conv_humidity (Aht20.raw_humidity d) in
  -10 < t < 0 ->
  V1.AHT20_ReadData w =
    Done (0, Some (t, h))
      (World (kern w)
             (trace w ++
                [MasterSend c [0xAC; 0x33; 0x00]; Msleep 80; MasterRecv c 6;
                 Printk KERN_INFO reading_fmt
                        [0; t; Z.quot h 10; Z.rem h 10]])
             (S (S (nxfer w))) (devices w) (glob w)).
Proof.
  intros H T R d t h Neg.
  rewrite (V1_ReadData_success w c H T R). fold d. fold t. fold h.
  cbv zeta.
  replace (Z.quot t 10) with 0
    by (symmetry; apply Z.quot_small_iff; lia).
  replace (Z.rem t 10) with t
    by (symmetry; apply Z.rem_small_iff; lia).
  reflexivity.
Qed.

Lemma V1_log_of_reading_just_below_zero_witness :
  V1.etx_i2c_client_aht (glob (V1_bound cold_sensor)) = Ptr V1.aht20_i2c_board_info
  /\ 0 <= xfer_ret cold_sensor 0 /\ 0 <= xfer_ret cold_sensor 1
  /\ -10 < Aht20.conv_temperature (Aht20.raw_temperature (rx_data cold_sensor 1)) < 0
  /\ V1.AHT20_ReadData (V1_bound cold_sensor) =
       Done (0, Some (-5, 500))
         (World cold_sensor
                [MasterSend V1.aht20_i2c_board_info [0xAC; 0x33; 0x00]; Msleep 80;
                 MasterRecv V1.aht20_i2c_board_info 6;
                 Printk KERN_INFO reading_fmt [0; -5; 50; 0]]
                2 [V1.oled_i2c_board_info; V1.aht20_i2c_board_info]
                (glob (V1_bound cold_sensor))).
Proof.
  assert (P0 : 0 <= xfer_ret cold_sensor 0) by (simpl; lia).
  assert (P1 : 0 <= xfer_ret cold_sensor 1) by (simpl; lia).
  assert (N : -10 < Aht20.conv_temperature
                      (Aht20.raw_temperature (rx_data cold_sensor 1)) < 0)
    by (vm_compute; split; reflexivity).
  split; [reflexivity |]. split; [exact P0 |]. split; [exact P1 |].
  split; [exact N |].
  exact (V1_log_of_reading_just_below_zero
           (V1_bound cold_sensor) V1.aht20_i2c_board_info eq_refl P0 P1 N).
Defined.
